(** * BibTeX reference tidying script: shallow embedding and verified properties

    The program is the Python script published in the post
    [文献引用整理脚本] (src/unnamed/part_000, lines 23-203).  It parses a BibTeX
    database, checks every entry against per-type rules, rebuilds each entry
    in a fixed field order, logs every entry in a spreadsheet and writes all
    rebuilt entries into one file.

    Python [str] values are modelled as [string]s holding the UTF-8 encoding
    of the text; dictionaries with string keys are [gmap string _]. *)

From Stdlib Require Import Ascii String List ZArith Lia.
From stdpp Require Import base option list strings gmap pretty sorting.

Local Open Scope string_scope.

(** ** Python string primitives used by the script *)

Module Py.

Definition nl : ascii := ascii_of_nat 10.
Definition tab : ascii := ascii_of_nat 9.
Definition NL : string := String nl "".
Definition TAB : string := String tab "".

(** [len(s)]: number of code points, i.e. of bytes that are not UTF-8
    continuation bytes (10xxxxxx). *)
Definition is_continuation (c : ascii) : bool :=
  let n := nat_of_ascii c in (128 <=? n)%nat && (n <? 192)%nat.

Fixpoint len (s : string) : nat :=
  match s with
  | EmptyString => 0
  | String c s' => if is_continuation c then len s' else S (len s')
  end.

Definition lower_ascii (c : ascii) : ascii :=
  let n := nat_of_ascii c in
  if (65 <=? n)%nat && (n <=? 90)%nat then ascii_of_nat (n + 32) else c.

(** [s.lower()].  ASCII capitals are mapped to their small letters.  Two
    code points outside ASCII have a lower-case form that contains an ASCII
    letter and are mapped as Python does: U+212A KELVIN SIGN (E2 84 AA) to
    [k], and U+0130 (C4 B0) to [i] followed by U+0307 (CC 87).  The remaining
    bytes above 127 are kept: the script only compares lowered text with
    ASCII literals, and the lower-case form of every other code point lies
    outside ASCII. *)
Definition byte_is (c : ascii) (n : nat) : bool := (nat_of_ascii c =? n)%nat.

Definition i_dot_above : string :=
  String "i" (String (ascii_of_nat 204) (String (ascii_of_nat 135) "")).

Fixpoint lower (s : string) : string :=
  match s with
  | EmptyString => EmptyString
  | String c s1 =>
      match s1 with
      | EmptyString => String (lower_ascii c) EmptyString
      | String c1 s2 =>
          if byte_is c 196 && byte_is c1 176 then i_dot_above +:+ lower s2
          else
            match s2 with
            | String c2 s3 =>
                if byte_is c 226 && byte_is c1 132 && byte_is c2 170
                then String "k" (lower s3)
                else String (lower_ascii c) (lower s1)
            | EmptyString => String (lower_ascii c) (lower s1)
            end
      end
  end.

(** [s.startswith(p)] *)
Fixpoint startswith (s p : string) : bool :=
  match p, s with
  | EmptyString, _ => true
  | String a p', String b s' => if Ascii.eqb a b then startswith s' p' else false
  | String _ _, EmptyString => false
  end.

(** [p in s] for strings: [p] occurs as a contiguous substring of [s]. *)
Fixpoint contains (p s : string) : bool :=
  startswith s p ||
  match s with
  | EmptyString => false
  | String _ s' => contains p s'
  end.

Definition char_in (chars : string) (c : ascii) : bool :=
  existsb (Ascii.eqb c) (list_ascii_of_string chars).

(** [s.rstrip(chars)]: drop the longest suffix made of characters of
    [chars]. *)
Fixpoint rstrip (s chars : string) : string :=
  match s with
  | EmptyString => EmptyString
  | String c s' =>
      match rstrip s' chars with
      | EmptyString => if char_in chars c then EmptyString else String c EmptyString
      | r => String c r
      end
  end.

(** [sep.join(l)] *)
Fixpoint join (sep : string) (l : list string) : string :=
  match l with
  | [] => ""
  | [x] => x
  | x :: l' => x +:+ sep +:+ join sep l'
  end.

(** [''.join(l)] *)
Definition concat (l : list string) : string := foldr String.append "" l.

Fixpoint spaces (n : nat) : string :=
  match n with
  | O => ""
  | S n' => String " " (spaces n')
  end.

(** The format spec [{s:<w}]: left-aligned in a field of [w] code points. *)
Definition ljust (s : string) (w : nat) : string := s +:+ spaces (w - len s).

(** Truth value of a string: empty strings are falsy. *)
Definition truthy (s : string) : bool :=
  match s with EmptyString => false | _ => true end.

(** [s.isascii()]: every byte is below 128. *)
Fixpoint isascii (s : string) : bool :=
  match s with
  | EmptyString => true
  | String c s' => (nat_of_ascii c <? 128)%nat && isascii s'
  end.

(** [s[:n]]: the first [n] code points.  A continuation byte belongs to the
    code point before it. *)
Fixpoint take (s : string) (n : N) : string :=
  match s with
  | EmptyString => EmptyString
  | String c s' =>
      if is_continuation c then String c (take s' n)
      else if N.eqb n 0 then EmptyString
      else String c (take s' (N.pred n))
  end.

End Py.


(** ** The parts of [re] used by the script

    A pattern is a sequence of items; every repetition in the two patterns of
    the script applies to a single character class.  [re.match] anchors the
    match at the start of the text and lets it end anywhere, so a leading [^]
    adds nothing and is not represented.  A repetition of a class whose
    characters may take several bytes ([\d], [\s]) is an item of its own,
    [Seq], given by the texts that the repetition matches. *)

Module Re.

Inductive item : Type :=
| One (p : ascii -> bool)      (* one character of the class *)
| Many (p : ascii -> bool)     (* class*  *)
| Many1 (p : ascii -> bool)    (* class+  *)
| Seq (ok : string -> bool)    (* class* or class+, by the texts matched *)
| Eol.                         (* $       *)

Definition pattern : Type := list item.

(** [.]: any character but a newline. *)
Definition dot (c : ascii) : bool := negb (Ascii.eqb c Py.nl).
(** [[^x]] *)
Definition not_char (x c : ascii) : bool := negb (Ascii.eqb c x).
(** A literal character. *)
Definition chr (x c : ascii) : bool := Ascii.eqb c x.
(** The ASCII characters of [\d]. *)
Definition digit (c : ascii) : bool :=
  let n := nat_of_ascii c in (48 <=? n)%nat && (n <=? 57)%nat.
(** The ASCII characters of [\s]: space, tab, newline, VT, FF, CR and the
    separators 1C-1F. *)
Definition space (c : ascii) : bool :=
  let n := nat_of_ascii c in
  (n =? 32)%nat || ((9 <=? n)%nat && (n <=? 13)%nat)
  || ((28 <=? n)%nat && (n <=? 31)%nat).

Definition lit (s : string) : pattern :=
  map (fun x => One (chr x)) (list_ascii_of_string s).

(** [$] matches at the end of the text and just before a final newline. *)
Definition at_eol (s : string) : bool :=
  match s with
  | EmptyString => true
  | String c EmptyString => Ascii.eqb c Py.nl
  | _ => false
  end.

Fixpoint many (p : ascii -> bool) (k : string -> bool) (s : string) : bool :=
  k s ||
  match s with
  | EmptyString => false
  | String c s' => p c && many p k s'
  end.

(** Some prefix [a] of [s] makes [acc ++ a] a text of [ok], and [k] accepts
    what follows. *)
Fixpoint seq (ok : string -> bool) (k : string -> bool) (acc s : string) : bool :=
  (ok acc && k s) ||
  match s with
  | EmptyString => false
  | String c s' => seq ok k (acc ++ String c EmptyString) s'
  end.

Fixpoint run (pat : pattern) (s : string) : bool :=
  match pat with
  | [] => true
  | One p :: pat' =>
      match s with
      | EmptyString => false
      | String c s' => p c && run pat' s'
      end
  | Many p :: pat' => many p (run pat') s
  | Many1 p :: pat' =>
      match s with
      | EmptyString => false
      | String c s' => p c && many p (run pat') s'
      end
  | Seq ok :: pat' => seq ok (run pat') EmptyString s
  | Eol :: pat' => at_eol s && run pat' s
  end.

(** Truth value of [re.match(pat, s)]. *)
Definition re_match (pat : pattern) (s : string) : bool := run pat s.

End Re.

(** Every character of the text is in the class. *)
Fixpoint all_chars (p : ascii -> bool) (s : string) : bool :=
  match s with
  | EmptyString => true
  | String c s' => p c && all_chars p s'
  end.

(** ** The character tables of [re] beyond ASCII

    On a [str] pattern the classes [\d] and [\s] follow the Unicode tables
    of the interpreter, which are no part of the script.  They are taken as
    given: [unicode_digits s] tells, for a text [s] that holds a character
    outside ASCII, whether [s] consists of decimal digits only, and
    [unicode_spaces s] whether it consists of white space only. *)

Class UnicodeTables : Type := {
  unicode_digits : string -> bool;
  unicode_spaces : string -> bool
}.

(** Tables without any character beyond ASCII, for the sample runs. *)
Definition ascii_tables : UnicodeTables :=
  {| unicode_digits := fun _ => false; unicode_spaces := fun _ => false |}.

(** ** Exceptions *)

Inductive exn : Type :=
| KeyError (key : string)
| IndexError
| ValueError
| IllegalCharacterError
| InvalidFileException (path : string).

Inductive result (A : Type) : Type :=
| Return (a : A)
| Raise (e : exn).
Arguments Return {A} a.
Arguments Raise {A} e.

#[global] Instance result_ret : MRet result := fun A a => Return a.
#[global] Instance result_bind : MBind result := fun A B f m =>
  match m with
  | Return a => f a
  | Raise e => Raise e
  end.

(** ** Dictionary access *)

(** [d[k]] *)
Definition getitem (d : gmap string string) (k : string) : result string :=
  match d !! k with
  | Some v => Return v
  | None => Raise (KeyError k)
  end.

(** [d.get(k, dflt)] *)
Definition get_default (d : gmap string string) (k dflt : string) : string :=
  default dflt (d !! k).

(** Truth value of [d.get(k)]: false when the key is absent ([None]) and when
    its value is the empty string. *)
Definition get_truthy (d : gmap string string) (k : string) : bool :=
  match d !! k with
  | Some v => Py.truthy v
  | None => false
  end.

(** [sorted(d.items())]: keys are unique, so the pairs are ordered by key;
    the order on [str] is the order of the UTF-8 bytes. *)
Fixpoint insert_sorted (x : string * string) (l : list (string * string))
  : list (string * string) :=
  match l with
  | [] => [x]
  | y :: l' => if String.leb (fst x) (fst y) then x :: l else y :: insert_sorted x l'
  end.

Definition sorted_items (d : gmap string string) : list (string * string) :=
  foldr insert_sorted [] (map_to_list d).

(** ** The outside world: files and the console *)

Inductive fill : Type :=
| NoFill
| RedFill       (* FFCDD2 *)
| YellowFill.   (* FFF9C4 *)

(** A sheet row: the three cells (Original, Updated, Record) and the fill
    given to them. *)
Record row : Type := mkRow {
  original_cell : string;
  updated_cell : string;
  record_cell : string;
  row_fill : fill
}.

Record workbook : Type := mkWorkbook {
  rows : list row;
  widths : list nat     (* column widths, columns A, B, C *)
}.

Inductive file : Type :=
| TextFile (content : string)
| XlsxFile (wb : workbook).

Record world : Type := mkWorld {
  files : gmap string file;
  stdout : list string   (* one element per call of print *)
}.

(** Computations that read and change the world and may raise. *)
Definition M (A : Type) : Type := world -> result A * world.

#[global] Instance M_ret : MRet M := fun A a w => (Return a, w).
#[global] Instance M_bind : MBind M := fun A B f m w =>
  match m w with
  | (Return a, w') => f a w'
  | (Raise e, w') => (Raise e, w')
  end.

Definition lift {A : Type} (r : result A) : M A := fun w => (r, w).

Definition print (s : string) : M unit :=
  fun w => (Return tt, mkWorld (files w) (stdout w ++ [s])).

(** [os.path.exists(path)] *)
Definition path_exists (path : string) : M bool :=
  fun w => (Return (bool_decide (is_Some (files w !! path))), w).

(** [os.remove(path)] on an existing file *)
Definition os_remove (path : string) : M unit :=
  fun w => (Return tt, mkWorld (delete path (files w)) (stdout w)).

Definition put_file (path : string) (f : file) : M unit :=
  fun w => (Return tt, mkWorld (<[path := f]> (files w)) (stdout w)).

(** [open(path, 'w')]: the file is created, or emptied when it exists. *)
Definition open_w (path : string) : M unit := put_file path (TextFile "").

(** [f.write(s)] on the file opened at [path]. *)
Definition write (path s : string) : M unit :=
  fun w =>
    match files w !! path with
    | Some (TextFile c) => put_file path (TextFile (c +:+ s)) w
    | _ => put_file path (TextFile s) w
    end.

Fixpoint forM_ {A : Type} (l : list A) (body : A -> M unit) : M unit :=
  match l with
  | [] => mret tt
  | x :: l' => body x ;; forM_ l' body
  end.

(** ** [save_to_excel] *)

Definition header_row : row := mkRow "Original" "Updated" "Record" NoFill.
Definition blank_row : row := mkRow "" "" "" NoFill.

(** [ws.max_row]: an empty sheet reports one row. *)
Definition max_row (wb : workbook) : nat := Nat.max 1 (length (rows wb)).

(** [max(len(str(cell.value)) for cell in col if cell.value)], which raises
    on a column without any non-empty cell, then [min(max_length + 2, 100)]. *)
Definition column_width (col : list string) : result nat :=
  match List.filter Py.truthy col with
  | [] => Raise ValueError
  | v :: vs => Return (Nat.min (foldl Nat.max (Py.len v) (map Py.len vs) + 2) 100)
  end.

(** The control characters that openpyxl refuses in a cell:
    [[\000-\010]|[\013-\014]|[\016-\037]]. *)
Definition illegal_character (c : ascii) : bool :=
  let n := nat_of_ascii c in
  (n <=? 8)%nat || ((11 <=? n)%nat && (n <=? 12)%nat)
  || ((14 <=? n)%nat && (n <=? 31)%nat).

(** The text that a cell keeps of a value: its first 32767 characters. *)
Definition cell_text (value : string) : string := Py.take value 32767.

(** What [ws.cell(row, column, value)] does with a text before it stores it
    (openpyxl's [check_string]): the text is cut, and an illegal character
    in what is left raises. *)
Definition check_string (value : string) : result string :=
  let value := cell_text value in
  if all_chars (fun c => negb (illegal_character c)) value
  then Return value
  else Raise IllegalCharacterError.

Definition save_to_excel (original updated record excel_path : string) : M unit :=
  ex ← path_exists excel_path;
  wb ← (if ex : bool then
          fun w => match files w !! excel_path with
                   | Some (XlsxFile wb) => (Return wb, w)
                   | _ => (Raise (InvalidFileException excel_path), w)
                   end
        else mret (mkWorkbook [header_row] []));
  let next_row := max_row wb + 1 in
  original_value ← lift (check_string original);
  updated_value ← lift (check_string updated);
  record_value ← lift (check_string record);
  let fill :=
    if Py.startswith record "error" then RedFill
    else if Py.startswith record "warning" then YellowFill
    else NoFill in
  let rows' := (rows wb ++ replicate (next_row - 1 - length (rows wb)) blank_row
                ++ [mkRow original_value updated_value record_value fill])%list in
  wa ← lift (column_width (map original_cell rows'));
  wb_ ← lift (column_width (map updated_cell rows'));
  wc ← lift (column_width (map record_cell rows'));
  put_file excel_path (XlsxFile (mkWorkbook rows' [wa; wb_; wc])).

Section Library.

Context {tables : UnicodeTables}.

(** The texts matched by [\s*]: white space only, by the ASCII class for an
    ASCII text and by the table otherwise. *)
Definition space_run (s : string) : bool :=
  if Py.isascii s then all_chars Re.space s else unicode_spaces s.

(** The texts matched by [\d*], and by [\d+]. *)
Definition digit_run (s : string) : bool :=
  if Py.isascii s then all_chars Re.digit s else unicode_digits s.

Definition digit_run1 (s : string) : bool := Py.truthy s && digit_run s.

(** [r'^arXiv preprint arXiv:\s*\d+\.\d+$'] *)
Definition arxiv_format : Re.pattern :=
  (Re.lit "arXiv preprint arXiv:"
     ++ [Re.Seq space_run; Re.Seq digit_run1; Re.One (Re.chr ".");
         Re.Seq digit_run1; Re.Eol])%list.

(** [r'.*\([^)]*\)$'] *)
Definition paren_format : Re.pattern :=
  [Re.Many Re.dot; Re.One (Re.chr "("); Re.Many (Re.not_char ")");
   Re.One (Re.chr ")"); Re.Eol].

(** ** [print_entry_info] and its inner function [generate_bibtex] *)

(** One rendered field, [f"\t{field:<10} = {{{value}}},\n"]. *)
Definition field_line (field value : string) : string :=
  Py.TAB +:+ Py.ljust field 10 +:+ " = {" +:+ value +:+ "}," +:+ Py.NL.

(** [f"@{entry_type}{{{entry.get('ID', 'unnamed')},\n"] *)
Definition header_line (entry : gmap string string) (entry_type : string) : string :=
  "@" +:+ entry_type +:+ "{" +:+ get_default entry "ID" "unnamed" +:+ "," +:+ Py.NL.

(** The characters given to [rstrip]: a comma and a newline. *)
Definition comma_nl : string := String "," Py.NL.

(** The closing of a rendered entry, [.rstrip(',\n') + "\n}"]. *)
Definition close_entry (s : string) : string :=
  Py.rstrip s comma_nl +:+ Py.NL +:+ "}".

(** [{field: entry.get(field, "null") for field in required_fields}] *)
Definition make_bib_dict (entry : gmap string string) (required_fields : list string)
  : gmap string string :=
  foldl (fun d field => <[field := get_default entry field "null"]> d) ∅ required_fields.

(** [generate_bibtex] assigns the variables [record] and [update_entry] of
    the enclosing call; here it returns the pair [(record, update_entry)]. *)
Definition generate_bibtex (entry : gmap string string) (entry_type : string)
    (required_fields : list string) (format_check : option Re.pattern)
  : result (string * string) :=
  let bib_dict := make_bib_dict entry required_fields in
  let missing_fields :=
    List.filter (fun field => negb (get_truthy entry field)) required_fields in
  let update_entry := header_line entry entry_type in
  lines ← mapM (fun field => v ← getitem bib_dict field ; Return (field_line field v))
                required_fields ;
  let update_entry := update_entry +:+ Py.concat lines in
  let update_entry := close_entry update_entry in
  if negb (Nat.eqb (length missing_fields) 0) then
    Return ("error: 缺失字段: " +:+ Py.join ", " missing_fields, update_entry)
  else
    match format_check with
    | Some pat =>
        match required_fields with
        | [] => Raise IndexError
        | field0 :: _ =>
            v ← getitem bib_dict field0 ;
            if negb (Re.re_match pat v)
            then Return ("warning: " +:+ field0 +:+ "格式错误", update_entry)
            else Return ("ok", update_entry)
        end
    | None => Return ("ok", update_entry)
    end.

Definition print_entry_info (entry : gmap string string)
  : result (string * string * string) :=
  ty ← getitem entry "ENTRYTYPE" ;
  let original_entry := header_line entry ty in
  let original_entry :=
    foldl (fun acc kv =>
             if String.eqb (fst kv) "ENTRYTYPE" || String.eqb (fst kv) "ID" then acc
             else acc +:+ field_line (fst kv) (snd kv))
          original_entry (sorted_items entry) in
  let original_entry := close_entry original_entry in
  let tag := Py.lower ty in
  '(record, update_entry) ←
    (if String.eqb tag "article" then
       if match entry !! "journal" with
          | Some journal => Py.contains "arxiv" (Py.lower journal)
          | None => false
          end
       then generate_bibtex entry "article"
              ["title"; "author"; "year"; "journal"] (Some arxiv_format)
       else generate_bibtex entry "article"
              ["title"; "author"; "journal"; "volume"; "number"; "pages"; "year"]
              (Some paren_format)
     else if String.eqb tag "inproceedings" then
       generate_bibtex entry "inproceedings"
         ["title"; "author"; "booktitle"; "year"; "pages"] (Some paren_format)
     else if String.eqb tag "misc" || String.eqb tag "www" then
       '(record, update_entry) ←
          generate_bibtex entry "www" ["author"; "year"; "title"; "url"] None ;
       Return (if String.eqb record "ok" then "warning: misc改www" else record,
               update_entry)
     else if String.eqb tag "book" then
       generate_bibtex entry "book"
         ["author"; "title"; "publisher"; "year"; "address"; "edition"] None
     else if String.eqb tag "techreport" then
       generate_bibtex entry "techreport"
         ["author"; "title"; "institution"; "year"; "address"] None
     else Return ("error: 未定义bibtex类型", "")) ;
  Return (record, update_entry, original_entry).

(** ** [save_all_updates] *)

(** The body of the loop, lines 171-173. *)
Definition write_update (output_file : string) (entry : gmap string string) : M unit :=
  '(_, update_entry, _) ← lift (print_entry_info entry);
  if Py.truthy update_entry
  then write output_file (update_entry +:+ Py.NL +:+ Py.NL)
  else mret tt.

Definition save_all_updates (entries : list (gmap string string)) (output_file : string)
  : M unit :=
  open_w output_file ;;
  forM_ entries (write_update output_file).

(** ** [parse_bib_file] and [main] *)

Section Driver.

(** The BibTeX parser ([bibtexparser.load] on the opened file) is an outside
    library: given the file it returns the parsed entries, or fails with an
    exception whose text is returned on the left. *)
Variable bibtexparser_load : file -> string + list (gmap string string).

Definition parse_bib_file (file_path : string) : M (list (gmap string string)) :=
  fun w =>
    match files w !! file_path with
    | None => (print ("错误: 找不到文件 " +:+ file_path) ;; mret []) w
    | Some f =>
        match bibtexparser_load f with
        | inr entries => (Return entries, w)
        | inl e => (print ("解析过程中发生错误: " +:+ e) ;; mret []) w
        end
    end.

Definition main : M unit :=
  ex ← path_exists "bibtex_records.xlsx";
  (if ex : bool then os_remove "bibtex_records.xlsx" else mret tt) ;;
  let file_path := "bib.ref" in
  entries ← parse_bib_file file_path;
  if negb (Nat.eqb (length entries) 0) then
    print ("共找到 " +:+ pretty (length entries) +:+ " 条文献记录") ;;
    forM_ entries (fun entry =>
      '(record, update_entry, original_entry) ← lift (print_entry_info entry);
      (if Py.truthy record then print ("处理记录: " +:+ record) else mret tt) ;;
      (if Py.truthy update_entry
       then print ("更新后的条目:" +:+ Py.NL +:+ update_entry +:+ Py.NL)
       else mret tt) ;;
      save_to_excel original_entry update_entry record "bibtex_records.xlsx") ;;
    save_all_updates entries "updated_references.bib" ;;
    print (Py.NL +:+ "所有更新后的条目已保存到 updated_references.bib")
  else
    print "未找到任何文献记录".

End Driver.

(** ** Vocabulary of the statements *)

(** The arguments of one call of [generate_bibtex]: the type written in the
    rebuilt entry, the required fields in their order, the format to check,
    and whether the caller turns the record [ok] into the [misc] warning. *)
Record rule : Type := mkRule {
  rule_type : string;
  rule_fields : list string;
  rule_format : option Re.pattern;
  rule_demote : bool
}.

Definition arxiv_rule : rule :=
  mkRule "article" ["title"; "author"; "year"; "journal"] (Some arxiv_format) false.
Definition article_rule : rule :=
  mkRule "article" ["title"; "author"; "journal"; "volume"; "number"; "pages"; "year"]
         (Some paren_format) false.
Definition inproceedings_rule : rule :=
  mkRule "inproceedings" ["title"; "author"; "booktitle"; "year"; "pages"]
         (Some paren_format) false.
Definition www_rule : rule :=
  mkRule "www" ["author"; "year"; "title"; "url"] None true.
Definition book_rule : rule :=
  mkRule "book" ["author"; "title"; "publisher"; "year"; "address"; "edition"] None false.
Definition techreport_rule : rule :=
  mkRule "techreport" ["author"; "title"; "institution"; "year"; "address"] None false.

(** The test of line 136: the entry has a [journal] whose lowered value
    contains [arxiv]. *)
Definition journal_is_arxiv (entry : gmap string string) : bool :=
  match entry !! "journal" with
  | Some journal => Py.contains "arxiv" (Py.lower journal)
  | None => false
  end.

(** The branch that [print_entry_info] takes for an entry whose type tag is
    [ty]; [None] stands for the final [else]. *)
Definition selected_rule (entry : gmap string string) (ty : string) : option rule :=
  let tag := Py.lower ty in
  if String.eqb tag "article" then
    Some (if journal_is_arxiv entry then arxiv_rule else article_rule)
  else if String.eqb tag "inproceedings" then Some inproceedings_rule
  else if String.eqb tag "misc" || String.eqb tag "www" then Some www_rule
  else if String.eqb tag "book" then Some book_rule
  else if String.eqb tag "techreport" then Some techreport_rule
  else None.

Definition known_types : list string :=
  ["article"; "inproceedings"; "misc"; "www"; "book"; "techreport"].

(** The text with every ASCII capital replaced by its small letter. *)
Fixpoint lower_each (s : string) : string :=
  match s with
  | EmptyString => EmptyString
  | String c s' => String (Py.lower_ascii c) (lower_each s')
  end.

(** A field is present when the entry has it with a non-empty value. *)
Definition present (entry : gmap string string) (field : string) : Prop :=
  exists v, entry !! field = Some v /\ v <> "".

(** The rebuilt entry as the specification describes it: the header, then one
    line per required field, lines separated by a comma and a newline, then
    the closing brace on a line of its own. *)
Definition canonical_line (entry : gmap string string) (field : string) : string :=
  Py.TAB +:+ Py.ljust field 10 +:+ " = {" +:+ get_default entry field "null" +:+ "}".

Definition canonical_text (entry : gmap string string) (entry_type : string)
    (fields : list string) : string :=
  header_line entry entry_type
  +:+ Py.join comma_nl (map (canonical_line entry) fields)
  +:+ Py.NL +:+ "}".

(** The list built at lines 120-121: the required fields that the entry lacks
    or holds with an empty value, in the order of the rule. *)
Definition missing_fields (entry : gmap string string) (fields : list string)
  : list string :=
  List.filter (fun field => negb (get_truthy entry field)) fields.

(** The value given to [record] by lines 128-133, for a field list that
    starts with [field0]. *)
Definition checked_record (entry : gmap string string) (field0 : string)
    (fs : list string) (format_check : option Re.pattern) : string :=
  if negb (Nat.eqb (length (missing_fields entry (field0 :: fs))) 0) then
    "error: 缺失字段: " +:+ Py.join ", " (missing_fields entry (field0 :: fs))
  else
    match format_check with
    | Some pat =>
        if negb (Re.re_match pat (get_default entry field0 "null"))
        then "warning: " +:+ field0 +:+ "格式错误"
        else "ok"
    | None => "ok"
    end.

(** The value of [record] when [print_entry_info] returns, for a rule. *)
Definition final_record (entry : gmap string string) (r : rule) : string :=
  match rule_fields r with
  | [] => ""
  | field0 :: fs =>
      let record := checked_record entry field0 fs (rule_format r) in
      if rule_demote r && String.eqb record "ok" then "warning: misc改www" else record
  end.

Definition record_of (r : result (string * string * string)) : option string :=
  match r with
  | Return (record, _, _) => Some record
  | Raise _ => None
  end.

Definition update_of (r : result (string * string * string)) : option string :=
  match r with
  | Return (_, update_entry, _) => Some update_entry
  | Raise _ => None
  end.

(** The text that [save_all_updates] leaves in the output file when no entry
    raises: the non-empty rebuilt entries, each followed by a blank line. *)
Fixpoint output_text (entries : list (gmap string string)) : string :=
  match entries with
  | [] => ""
  | entry :: rest =>
      match print_entry_info entry with
      | Return (_, update_entry, _) =>
          (if Py.truthy update_entry then update_entry +:+ Py.NL +:+ Py.NL else "")
          +:+ output_text rest
      | Raise _ => ""
      end
  end.

(** ** Sample entries *)

Definition ex_book : gmap string string :=
  list_to_map [("ENTRYTYPE", "book"); ("ID", "knuth1997"); ("author", "Knuth");
    ("title", "The Art of Computer Programming"); ("publisher", "Addison-Wesley");
    ("year", "1997"); ("address", "Reading"); ("edition", "3")].

Definition ex_book_no_edition : gmap string string := delete "edition" ex_book.

Definition ex_book_empty_edition : gmap string string := <["edition" := ""]> ex_book.

Definition ex_inproceedings : gmap string string :=
  list_to_map [("ENTRYTYPE", "inproceedings"); ("ID", "he2016");
    ("title", "Deep Residual Learning"); ("author", "He"); ("booktitle", "CVPR");
    ("year", "2016"); ("pages", "1-20")].

Definition ex_inproceedings_paren_title : gmap string string :=
  <["title" := "Deep Residual Learning (Extended)"]> ex_inproceedings.

Definition ex_inproceedings_paren_pages : gmap string string :=
  <["pages" := "1--20 (oral)"]> ex_inproceedings.

Definition ex_inproceedings_no_year : gmap string string :=
  delete "year" ex_inproceedings.

Definition ex_arxiv : gmap string string :=
  list_to_map [("ENTRYTYPE", "article"); ("ID", "vaswani2017");
    ("title", "Attention Is All You Need"); ("author", "Vaswani"); ("year", "2017");
    ("journal", "arXiv preprint arXiv:1706.03762")].

Definition ex_arxiv_title_as_journal : gmap string string :=
  list_to_map [("ENTRYTYPE", "article"); ("ID", "vaswani2017");
    ("title", "arXiv preprint arXiv:1706.03762"); ("author", "Vaswani");
    ("year", "2017"); ("journal", "ARXIV")].

Definition ex_misc : gmap string string :=
  list_to_map [("ENTRYTYPE", "Misc"); ("ID", "site"); ("author", "Anon");
    ("year", "2024"); ("title", "A Page"); ("url", "http://example.org")].

Definition ex_phdthesis : gmap string string :=
  list_to_map [("ENTRYTYPE", "phdthesis"); ("ID", "t"); ("title", "A Thesis")].

(** A world with an empty input file and the spreadsheet and output of an
    earlier run. *)
Definition ex_world_empty_input : world :=
  mkWorld (list_to_map [("bib.ref", TextFile "");
                        ("bibtex_records.xlsx", XlsxFile (mkWorkbook [header_row] []));
                        ("updated_references.bib", TextFile "old")])
          [].

(** ** Vocabulary of the statements on the spreadsheet and the driver *)

(** The fill chosen at lines 82-87 from the start of the record. *)
Definition fill_of (record : string) : fill :=
  if Py.startswith record "error" then RedFill
  else if Py.startswith record "warning" then YellowFill
  else NoFill.

(** The width that lines 89-92 give to a column that has a non-empty cell. *)
Definition width_of (col : list string) : nat :=
  match column_width col with
  | Return n => n
  | Raise _ => 0
  end.

Definition sheet_widths (rs : list row) : list nat :=
  [width_of (map original_cell rs); width_of (map updated_cell rs);
   width_of (map record_cell rs)].

(** A text that a cell takes: no illegal character in what the cell keeps. *)
Definition legal_text (s : string) : Prop :=
  all_chars (fun c => negb (illegal_character c)) (cell_text s) = true.

(** A text without any character that a cell refuses, and an entry whose
    keys and values are such texts. *)
Definition clean (s : string) : Prop :=
  all_chars (fun c => negb (illegal_character c)) s = true.

Definition clean_entry (entry : gmap string string) : Prop :=
  forall k v, entry !! k = Some v -> clean k /\ clean v.

(** The row that [main] logs for an entry. *)
Definition audit_row (entry : gmap string string) : row :=
  match print_entry_info entry with
  | Return (record, update_entry, original_entry) =>
      mkRow (cell_text original_entry) (cell_text update_entry) (cell_text record)
            (fill_of record)
  | Raise _ => blank_row
  end.

(** An entry that [main] can log: it has a type tag, and its three texts are
    taken by the cells. *)
Definition loggable (entry : gmap string string) : Prop :=
  match print_entry_info entry with
  | Return (record, update_entry, original_entry) =>
      legal_text original_entry /\ legal_text update_entry /\ legal_text record
  | Raise _ => False
  end.

(** What [main] prints for an entry, lines 190-193. *)
Definition entry_messages (entry : gmap string string) : list string :=
  match print_entry_info entry with
  | Return (record, update_entry, _) =>
      ((if Py.truthy record then ["处理记录: " +:+ record] else [])
       ++ (if Py.truthy update_entry
           then ["更新后的条目:" +:+ Py.NL +:+ update_entry +:+ Py.NL]
           else []))%list
  | Raise _ => []
  end.

(** The rows of the sheet after a call of [save_to_excel], given the workbook
    found or created at lines 69-75. *)
Definition next_rows (original updated record : string) (wb : workbook) : list row :=
  (rows wb ++ replicate (max_row wb + 1 - 1 - length (rows wb)) blank_row
   ++ [mkRow (cell_text original) (cell_text updated) (cell_text record)
             (fill_of record)])%list.

(** The fields that the original text shows: all but the type tag and the
    identifier, by ascending key. *)
Definition shown_items (entry : gmap string string) : list (string * string) :=
  List.filter (fun kv => negb (String.eqb (fst kv) "ENTRYTYPE" || String.eqb (fst kv) "ID"))
              (sorted_items entry).

(** The order of [sorted] on the items of an entry: by key. *)
Definition key_le (a b : string * string) : Prop := (fst a ≤ fst b)%string.

Definition original_of (r : result (string * string * string)) : option string :=
  match r with
  | Return (_, _, original_entry) => Some original_entry
  | Raise _ => None
  end.

(** The body of the loop of [main], lines 189-194. *)
Definition log_entry (entry : gmap string string) : M unit :=
  '(record, update_entry, original_entry) ← lift (print_entry_info entry);
  (if Py.truthy record then print ("处理记录: " +:+ record) else mret tt) ;;
  (if Py.truthy update_entry
   then print ("更新后的条目:" +:+ Py.NL +:+ update_entry +:+ Py.NL)
   else mret tt) ;;
  save_to_excel original_entry update_entry record "bibtex_records.xlsx".

(** An entry has a type tag. *)
Definition typed (entry : gmap string string) : Prop :=
  is_Some (entry !! "ENTRYTYPE").

(** The workbook that [main] leaves for the entries it has logged. *)
Definition audit_log (entries : list (gmap string string)) : file :=
  XlsxFile (mkWorkbook (header_row :: map audit_row entries)
                       (sheet_widths (header_row :: map audit_row entries))).

(** Every column of the sheet has a non-empty cell. *)
Definition columns_filled (rs : list row) : Prop :=
  (exists r, r ∈ rs /\ original_cell r <> "")
  /\ (exists r, r ∈ rs /\ updated_cell r <> "")
  /\ (exists r, r ∈ rs /\ record_cell r <> "").

(** ** Sample entries and worlds for the further statements *)

Definition ex_untyped : gmap string string := delete "ENTRYTYPE" ex_book.

(** A spreadsheet without header row whose only row has no rebuilt entry. *)
Definition ex_blank_sheet_world : world :=
  mkWorld {[ "bibtex_records.xlsx" :=
               XlsxFile (mkWorkbook
                 [mkRow "@phdthesis{s}" "" "error: 未定义bibtex类型" RedFill] []) ]} [].

Definition ex_load_two : file -> string + list (gmap string string) :=
  fun _ => inr [ex_book; ex_phdthesis].

Definition ex_load_untyped : file -> string + list (gmap string string) :=
  fun _ => inr ([ex_book] ++ ex_untyped :: [ex_misc])%list.

Definition ex_load_failure : file -> string + list (gmap string string) :=
  fun _ => inl "unexpected end of file".

(** * Properties *)

(** ** Strings *)

Section StringFacts.

Lemma str_app_cons (c : ascii) (s t : string) : String c s +:+ t = String c (s +:+ t).
Proof. reflexivity. Qed.

Lemma str_app_empty_l (s : string) : "" +:+ s = s.
Proof. reflexivity. Qed.

Lemma str_app_empty_r (s : string) : s +:+ "" = s.
Proof.
  induction s as [|c s IH]; [reflexivity|].
  rewrite str_app_cons. now rewrite IH.
Qed.

Lemma str_app_assoc (s t u : string) : (s +:+ t) +:+ u = s +:+ (t +:+ u).
Proof.
  induction s as [|c s IH]; [reflexivity|].
  rewrite !str_app_cons. now rewrite IH.
Qed.

(** [rstrip(',\n')] removes a final comma and newline and stops at any other
    character before them. *)
Lemma rstrip_comma_nl (s : string) (c : ascii) :
  Py.char_in comma_nl c = false ->
  Py.rstrip (s +:+ String c comma_nl) comma_nl = s +:+ String c "".
Proof.
  intros Hc. induction s as [|a s IH].
  - rewrite !str_app_empty_l.
    change (Py.rstrip (String c comma_nl) comma_nl)
      with (if Py.char_in comma_nl c then "" else String c "").
    now rewrite Hc.
  - rewrite !str_app_cons.
    change (Py.rstrip (String a (s +:+ String c comma_nl)) comma_nl)
      with (match Py.rstrip (s +:+ String c comma_nl) comma_nl with
            | EmptyString => if Py.char_in comma_nl a then "" else String a ""
            | r => String a r
            end).
    rewrite IH. destruct s; reflexivity.
Qed.

Lemma join_cons2 (sep x y : string) (l : list string) :
  Py.join sep (x :: y :: l) = x +:+ sep +:+ Py.join sep (y :: l).
Proof. reflexivity. Qed.

(** Concatenating items that each carry the separator is joining them and
    adding one separator at the end. *)
Lemma concat_join {A : Type} (g : A -> string) (sep : string) (l : list A) :
  l <> [] ->
  Py.concat (map (fun x => g x +:+ sep) l) = Py.join sep (map g l) +:+ sep.
Proof.
  induction l as [|x l IH]; [congruence|]. intros _.
  destruct l as [|y l].
  - cbn [map Py.concat foldr Py.join]. now rewrite str_app_empty_r.
  - specialize (IH ltac:(discriminate)).
    change (Py.concat (map (fun x0 => g x0 +:+ sep) (x :: y :: l)))
      with ((g x +:+ sep) +:+ Py.concat (map (fun x0 => g x0 +:+ sep) (y :: l))).
    rewrite IH. cbn [map]. rewrite join_cons2. now rewrite !str_app_assoc.
Qed.

(** A join of items that all end in [c] ends in [c]. *)
Lemma join_ends_with (c : ascii) (sep : string) (l : list string) :
  l <> [] ->
  (forall x, In x l -> exists y, x = y +:+ String c "") ->
  exists z, Py.join sep l = z +:+ String c "".
Proof.
  induction l as [|x l IH]; [congruence|]. intros _ Hall.
  destruct l as [|y l].
  - apply Hall. now left.
  - destruct IH as [z Hz]; [discriminate | intros; apply Hall; now right |].
    exists (x +:+ sep +:+ z).
    rewrite join_cons2, Hz. now rewrite !str_app_assoc.
Qed.

Lemma byte_is_ascii (c : ascii) (n : nat) :
  (nat_of_ascii c < 128)%nat -> (128 <= n)%nat -> Py.byte_is c n = false.
Proof. intros Hc Hn. unfold Py.byte_is. apply Nat.eqb_neq. lia. Qed.

Lemma lower_cons2 (c c1 : ascii) (s2 : string) :
  Py.lower (String c (String c1 s2))
  = if Py.byte_is c 196 && Py.byte_is c1 176 then Py.i_dot_above +:+ Py.lower s2
    else match s2 with
         | String c2 s3 =>
             if Py.byte_is c 226 && Py.byte_is c1 132 && Py.byte_is c2 170
             then String "k" (Py.lower s3)
             else String (Py.lower_ascii c) (Py.lower (String c1 s2))
         | EmptyString => String (Py.lower_ascii c) (Py.lower (String c1 s2))
         end.
Proof. reflexivity. Qed.

Lemma lower_cons_ascii (c : ascii) (s : string) :
  (nat_of_ascii c < 128)%nat ->
  Py.lower (String c s) = String (Py.lower_ascii c) (Py.lower s).
Proof.
  intros Hc. destruct s as [|c1 s2]; [reflexivity|].
  rewrite lower_cons2.
  rewrite (byte_is_ascii c 196 Hc) by lia. cbn [andb].
  destruct s2 as [|c2 s3]; [reflexivity|].
  rewrite (byte_is_ascii c 226 Hc) by lia. reflexivity.
Qed.

Lemma lower_app_ascii (x : ascii) (w : string) :
  (nat_of_ascii x < 128)%nat ->
  forall (n : nat) (a : string), (String.length a <= n)%nat ->
    Py.lower (a +:+ String x w) = Py.lower a +:+ Py.lower (String x w).
Proof.
  intros Hx. induction n as [|n IH]; intros a Hlen.
  { destruct a; [reflexivity | cbn in Hlen; lia]. }
  destruct a as [|c a1]; [reflexivity|].
  destruct a1 as [|c1 a2].
  - rewrite str_app_cons, str_app_empty_l, lower_cons2.
    rewrite (byte_is_ascii x 176 Hx) by lia. rewrite andb_false_r.
    destruct w as [|c2 s3].
    + reflexivity.
    + rewrite (byte_is_ascii x 132 Hx) by lia. rewrite andb_false_r. reflexivity.
  - rewrite !str_app_cons, !lower_cons2.
    cbn in Hlen.
    destruct (Py.byte_is c 196 && Py.byte_is c1 176).
    + rewrite IH by lia. now rewrite str_app_assoc.
    + destruct a2 as [|c2 a3].
      * rewrite str_app_empty_l.
        rewrite (byte_is_ascii x 170 Hx) by lia. rewrite andb_false_r.
        change (String c1 (String x w)) with (String c1 "" +:+ String x w).
        rewrite (IH (String c1 "")) by (cbn; lia).
        now rewrite str_app_cons.
      * rewrite str_app_cons.
        destruct (Py.byte_is c 226 && Py.byte_is c1 132 && Py.byte_is c2 170).
        -- cbn in Hlen. rewrite IH by lia. now rewrite str_app_cons.
        -- change (String c1 (String c2 (a3 +:+ String x w)))
             with (String c1 (String c2 a3) +:+ String x w).
           rewrite (IH (String c1 (String c2 a3))) by (cbn in *; lia).
           now rewrite str_app_cons.
Qed.

Lemma lower_app (a w : string) (x : ascii) :
  (nat_of_ascii x < 128)%nat ->
  Py.lower (a +:+ String x w) = Py.lower a +:+ Py.lower (String x w).
Proof. intros Hx. now apply (lower_app_ascii x w Hx (String.length a)). Qed.

Lemma lower_ascii_preimage (c x : ascii) :
  Py.lower_ascii c = x -> (nat_of_ascii x < 128)%nat -> (nat_of_ascii c < 128)%nat.
Proof.
  unfold Py.lower_ascii. intros H Hx.
  destruct ((65 <=? nat_of_ascii c)%nat && (nat_of_ascii c <=? 90)%nat) eqn:E.
  - apply andb_true_iff in E as [_ E]. apply Nat.leb_le in E. lia.
  - now subst.
Qed.

Lemma startswith_app (p s : string) : Py.startswith (p +:+ s) p = true.
Proof.
  induction p as [|c p IH]; [now destruct s|].
  rewrite str_app_cons. cbn [Py.startswith]. now rewrite Ascii.eqb_refl.
Qed.

Lemma contains_app (p a b : string) : Py.contains p (a +:+ p +:+ b) = true.
Proof.
  induction a as [|c a IH].
  - rewrite str_app_empty_l. destruct (p +:+ b) eqn:E; cbn [Py.contains];
      rewrite <- E, startswith_app; reflexivity.
  - rewrite str_app_cons. cbn [Py.contains]. rewrite IH. apply orb_true_r.
Qed.

Lemma lower_each_app (w b : string) :
  (forall c, In c (list_ascii_of_string w) -> (nat_of_ascii c < 128)%nat) ->
  Py.lower (w +:+ b) = lower_each w +:+ Py.lower b.
Proof.
  induction w as [|c w IH]; intros Hw; [reflexivity|].
  rewrite str_app_cons, lower_cons_ascii by (apply Hw; now left).
  rewrite IH by (intros x Hx; apply Hw; now right). reflexivity.
Qed.

(** A text that contains [arxiv] in any mix of upper and lower case contains
    [arxiv] after [lower()]. *)
Lemma contains_arxiv_any_case (a w b : string) :
  lower_each w = "arxiv" ->
  Py.contains "arxiv" (Py.lower (a +:+ w +:+ b)) = true.
Proof.
  intros Hw.
  assert (Hascii : forall c, In c (list_ascii_of_string w) -> (nat_of_ascii c < 128)%nat).
  { destruct w as [|c1 [|c2 [|c3 [|c4 [|c5 [|c6 w]]]]]]; try discriminate.
    injection Hw as H1 H2 H3 H4 H5.
    intros c [<-|[<-|[<-|[<-|[<-|[]]]]]];
      (eapply lower_ascii_preimage; [eassumption | apply Nat.ltb_lt; reflexivity]). }
  destruct w as [|x w]; [discriminate|].
  rewrite str_app_cons, lower_app by (apply Hascii; now left).
  rewrite <- str_app_cons, (lower_each_app _ b Hascii), Hw.
  apply contains_app.
Qed.

End StringFacts.

(** ** [generate_bibtex] *)

Section GenerateBibtex.

Variable entry : gmap string string.

Lemma make_bib_dict_acc (fields : list string) (d : gmap string string) (field : string) :
  foldl (fun d f => <[f := get_default entry f "null"]> d) d fields !! field
  = if bool_decide (field ∈ fields) then Some (get_default entry field "null")
    else d !! field.
Proof.
  revert d. induction fields as [|f fields IH]; intros d; [reflexivity|].
  cbn [foldl]. rewrite IH.
  destruct (decide (field ∈ fields)) as [Hin|Hnin].
  - rewrite !bool_decide_eq_true_2; [done | set_solver | done].
  - rewrite (bool_decide_eq_false_2 _ Hnin).
    destruct (decide (f = field)) as [->|Hne].
    + rewrite lookup_insert_eq. rewrite bool_decide_eq_true_2; [done | set_solver].
    + rewrite lookup_insert_ne by done.
      rewrite bool_decide_eq_false_2; [done |].
      intros [?|?]%elem_of_cons; [congruence | done].
Qed.

(** Every required field is a key of [bib_dict], bound to the value of the
    entry or to [null]. *)
Lemma make_bib_dict_lookup (fields : list string) (field : string) :
  field ∈ fields ->
  make_bib_dict entry fields !! field = Some (get_default entry field "null").
Proof.
  intros Hin. unfold make_bib_dict. rewrite make_bib_dict_acc.
  now rewrite bool_decide_eq_true_2.
Qed.

Lemma getitem_bib_dict (fields : list string) (field : string) :
  field ∈ fields ->
  getitem (make_bib_dict entry fields) field = Return (get_default entry field "null").
Proof.
  intros Hin. unfold getitem. now rewrite make_bib_dict_lookup.
Qed.

Lemma mapM_return {A B : Type} (f : A -> result B) (g : A -> B) (l : list A) :
  (forall x, x ∈ l -> f x = Return (g x)) ->
  mapM f l = Return (map g l).
Proof.
  induction l as [|x l IH]; intros Hf; [reflexivity|].
  cbn [mapM map]. rewrite (Hf x) by set_solver.
  cbn. rewrite IH; [reflexivity|]. intros y Hy. apply Hf. set_solver.
Qed.

Lemma field_line_canonical (field : string) :
  field_line field (get_default entry field "null")
  = canonical_line entry field +:+ comma_nl.
Proof.
  unfold field_line, canonical_line. now rewrite !str_app_assoc.
Qed.

(** The text built by lines 123-126 is the canonical text. *)
Lemma close_entry_canonical (entry_type : string) (fields : list string) :
  fields <> [] ->
  close_entry (header_line entry entry_type
               +:+ Py.concat (map (fun f => field_line f (get_default entry f "null")) fields))
  = canonical_text entry entry_type fields.
Proof.
  intros Hne. unfold close_entry, canonical_text.
  rewrite (map_ext _ (fun f => canonical_line entry f +:+ comma_nl))
    by apply field_line_canonical.
  rewrite (concat_join (canonical_line entry) comma_nl fields Hne).
  destruct (join_ends_with "}" comma_nl (map (canonical_line entry) fields)) as [z Hz].
  - destruct fields; [congruence | discriminate].
  - intros x Hx. apply in_map_iff in Hx as [f [<- _]].
    exists (Py.TAB +:+ Py.ljust f 10 +:+ " = {" +:+ get_default entry f "null").
    unfold canonical_line. now rewrite !str_app_assoc.
  - rewrite Hz. rewrite <- !str_app_assoc.
    rewrite (str_app_assoc _ (String "}" "") comma_nl).
    change (String "}" "" +:+ comma_nl) with (String "}" comma_nl).
    rewrite rstrip_comma_nl by reflexivity.
    now rewrite !str_app_assoc.
Qed.

(** [generate_bibtex] never raises on a non-empty field list; this is its
    result. *)
Lemma generate_bibtex_eq (entry_type field0 : string) (fs : list string)
    (format_check : option Re.pattern) :
  generate_bibtex entry entry_type (field0 :: fs) format_check
  = Return (checked_record entry field0 fs format_check,
       canonical_text entry entry_type (field0 :: fs)).
Proof.
  unfold generate_bibtex, checked_record.
  rewrite (mapM_return _ (fun f => field_line f (get_default entry f "null"))).
  2:{ intros f Hf. rewrite getitem_bib_dict by done. reflexivity. }
  cbn [mbind result_bind].
  rewrite close_entry_canonical by discriminate.
  fold (missing_fields entry (field0 :: fs)).
  destruct (negb (Nat.eqb (length (missing_fields entry (field0 :: fs))) 0)); [reflexivity|].
  destruct format_check as [pat|]; [|reflexivity].
  rewrite getitem_bib_dict by set_solver.
  cbn [mbind result_bind].
  destruct (negb (Re.re_match pat (get_default entry field0 "null"))); reflexivity.
Qed.

End GenerateBibtex.

(** ** [print_entry_info] *)

Section PrintEntryInfo.

Variable entry : gmap string string.
Variable ty : string.
Hypothesis Hty : entry !! "ENTRYTYPE" = Some ty.

(** A known type tag leads to one call of [generate_bibtex], with the
    arguments of the selected rule. *)
Lemma print_entry_info_known (r : rule) :
  selected_rule entry ty = Some r ->
  exists o,
    print_entry_info entry
    = Return (final_record entry r,
              canonical_text entry (rule_type r) (rule_fields r), o).
Proof.
  intros Hr. unfold print_entry_info, getitem. rewrite Hty.
  cbn [mbind result_bind].
  unfold selected_rule, journal_is_arxiv in Hr.
  destruct (String.eqb (Py.lower ty) "article").
  { destruct (match entry !! "journal" with
              | Some journal => Py.contains "arxiv" (Py.lower journal)
              | None => false
              end);
      injection Hr as <-; rewrite generate_bibtex_eq; eexists; reflexivity. }
  destruct (String.eqb (Py.lower ty) "inproceedings").
  { injection Hr as <-. rewrite generate_bibtex_eq. eexists; reflexivity. }
  destruct (String.eqb (Py.lower ty) "misc" || String.eqb (Py.lower ty) "www").
  { injection Hr as <-. rewrite generate_bibtex_eq. eexists; reflexivity. }
  destruct (String.eqb (Py.lower ty) "book").
  { injection Hr as <-. rewrite generate_bibtex_eq. eexists; reflexivity. }
  destruct (String.eqb (Py.lower ty) "techreport").
  { injection Hr as <-. rewrite generate_bibtex_eq. eexists; reflexivity. }
  discriminate.
Qed.

(** A type tag without a branch leads to the final [else]. *)
Lemma print_entry_info_no_rule :
  selected_rule entry ty = None ->
  exists o, print_entry_info entry = Return ("error: 未定义bibtex类型", "", o).
Proof.
  intros Hr. unfold print_entry_info, getitem. rewrite Hty.
  cbn [mbind result_bind]. unfold selected_rule in Hr.
  destruct (String.eqb (Py.lower ty) "article"); [discriminate|].
  destruct (String.eqb (Py.lower ty) "inproceedings"); [discriminate|].
  destruct (String.eqb (Py.lower ty) "misc" || String.eqb (Py.lower ty) "www");
    [discriminate|].
  destruct (String.eqb (Py.lower ty) "book"); [discriminate|].
  destruct (String.eqb (Py.lower ty) "techreport"); [discriminate|].
  eexists. reflexivity.
Qed.

End PrintEntryInfo.

(** ** Missing fields and rules *)

Section Rules.

Variable entry : gmap string string.

Lemma get_truthy_present (field : string) :
  get_truthy entry field = true <-> present entry field.
Proof.
  unfold get_truthy, present. destruct (entry !! field) as [v|].
  - destruct v as [|c v]; cbn.
    + split; [discriminate | intros (w & [= <-] & Hw); congruence].
    + split; [intros _; eexists; split; [reflexivity | discriminate] | reflexivity].
  - split; [discriminate | intros (w & [=] & _)].
Qed.

Lemma elem_of_missing_fields (fields : list string) (field : string) :
  field ∈ missing_fields entry fields <-> field ∈ fields /\ ~ present entry field.
Proof.
  unfold missing_fields. rewrite !list_elem_of_In, filter_In.
  rewrite <- get_truthy_present.
  destruct (get_truthy entry field); cbn; intuition congruence.
Qed.

Lemma missing_fields_sublist (fields : list string) :
  missing_fields entry fields `sublist_of` fields.
Proof.
  induction fields as [|f fields IH]; [constructor|].
  unfold missing_fields in *. cbn [List.filter].
  destruct (negb (get_truthy entry f)); now constructor.
Qed.

Lemma missing_fields_none (fields : list string) :
  (forall f, f ∈ fields -> present entry f) -> missing_fields entry fields = [].
Proof.
  intros Hall. destruct (missing_fields entry fields) as [|f l] eqn:E; [reflexivity|].
  assert (Hf : f ∈ missing_fields entry fields) by (rewrite E; left).
  apply elem_of_missing_fields in Hf as [Hin Hn]. destruct Hn. now apply Hall.
Qed.

Lemma missing_fields_some (fields : list string) (field : string) :
  field ∈ fields -> ~ present entry field ->
  negb (Nat.eqb (length (missing_fields entry fields)) 0) = true.
Proof.
  intros Hin Hn.
  assert (Hf : field ∈ missing_fields entry fields)
    by (apply elem_of_missing_fields; done).
  destruct (missing_fields entry fields); [inversion Hf | reflexivity].
Qed.

(** With a field missing the record is the error, whatever the format. *)
Lemma checked_record_missing (field0 : string) (fs : list string)
    (format_check : option Re.pattern) (field : string) :
  field ∈ field0 :: fs -> ~ present entry field ->
  checked_record entry field0 fs format_check
  = "error: 缺失字段: " +:+ Py.join ", " (missing_fields entry (field0 :: fs)).
Proof.
  intros Hin Hn. unfold checked_record.
  now rewrite (missing_fields_some _ field).
Qed.

(** With every field present the record depends on the format only. *)
Lemma checked_record_present (field0 : string) (fs : list string)
    (format_check : option Re.pattern) :
  (forall f, f ∈ field0 :: fs -> present entry f) ->
  checked_record entry field0 fs format_check
  = match format_check with
    | Some pat =>
        if negb (Re.re_match pat (get_default entry field0 "null"))
        then "warning: " +:+ field0 +:+ "格式错误"
        else "ok"
    | None => "ok"
    end.
Proof.
  intros Hall. unfold checked_record. now rewrite missing_fields_none.
Qed.

Lemma selected_rule_cases (ty : string) (r : rule) :
  selected_rule entry ty = Some r ->
  r ∈ [arxiv_rule; article_rule; inproceedings_rule; www_rule; book_rule; techreport_rule].
Proof.
  unfold selected_rule. repeat case_match; intros [= <-]; set_solver.
Qed.

Lemma selected_rule_fields (ty : string) (r : rule) :
  selected_rule entry ty = Some r ->
  exists field0 fs, rule_fields r = field0 :: fs.
Proof.
  intros Hr%selected_rule_cases.
  repeat (apply elem_of_cons in Hr as [-> | Hr]; [eexists _, _; reflexivity|]).
  inversion Hr.
Qed.

(** Only the branch of [misc] and [www] rewrites the record [ok]. *)
Lemma selected_rule_demote (ty : string) (r : rule) :
  selected_rule entry ty = Some r ->
  rule_demote r = true <-> (Py.lower ty = "misc" \/ Py.lower ty = "www").
Proof.
  unfold selected_rule.
  destruct (String.eqb_spec (Py.lower ty) "article") as [->|?].
  { intros [= <-]. split; [|intros [[=]|[=]]]. now destruct (journal_is_arxiv entry). }
  destruct (String.eqb_spec (Py.lower ty) "inproceedings") as [->|?].
  { intros [= <-]. split; [discriminate | intros [[=]|[=]]]. }
  destruct (String.eqb_spec (Py.lower ty) "misc") as [->|?].
  { intros [= <-]. split; [now left | reflexivity]. }
  destruct (String.eqb_spec (Py.lower ty) "www") as [->|?].
  { intros [= <-]. split; [now right | reflexivity]. }
  cbn [orb].
  destruct (String.eqb_spec (Py.lower ty) "book") as [->|?].
  { intros [= <-]. split; [discriminate | intros [[=]|[=]]]. }
  destruct (String.eqb_spec (Py.lower ty) "techreport") as [->|?].
  { intros [= <-]. split; [discriminate | intros [[=]|[=]]]. }
  discriminate.
Qed.

(** The type tags with a branch are the six known ones. *)
Lemma selected_rule_known (ty : string) :
  is_Some (selected_rule entry ty) <-> Py.lower ty ∈ known_types.
Proof.
  unfold selected_rule, known_types.
  destruct (String.eqb_spec (Py.lower ty) "article") as [->|?];
    [split; [set_solver | eauto] |].
  destruct (String.eqb_spec (Py.lower ty) "inproceedings") as [->|?];
    [split; [set_solver | eauto] |].
  destruct (String.eqb_spec (Py.lower ty) "misc") as [->|?];
    [split; [set_solver | eauto] |].
  destruct (String.eqb_spec (Py.lower ty) "www") as [->|?];
    [split; [set_solver | eauto] |].
  cbn [orb].
  destruct (String.eqb_spec (Py.lower ty) "book") as [->|?];
    [split; [set_solver | eauto] |].
  destruct (String.eqb_spec (Py.lower ty) "techreport") as [->|?];
    [split; [set_solver | eauto] |].
  split; [intros [? [=]] |]. intros Hin.
  repeat (apply elem_of_cons in Hin as [? | Hin]; [congruence|]).
  inversion Hin.
Qed.

Lemma selected_rule_unknown (ty : string) :
  Py.lower ty ∉ known_types -> selected_rule entry ty = None.
Proof.
  intros Hun. destruct (selected_rule entry ty) as [r|] eqn:Hr; [|reflexivity].
  destruct Hun. apply selected_rule_known. eauto.
Qed.

End Rules.

(** ** Outcome of one entry *)

Section Outcome.

Variable entry : gmap string string.
Variable ty : string.
Variable r : rule.
Hypothesis Hty : entry !! "ENTRYTYPE" = Some ty.
Hypothesis Hr : selected_rule entry ty = Some r.

Lemma error_is_not_ok (s : string) : String.eqb ("error: 缺失字段: " +:+ s) "ok" = false.
Proof. reflexivity. Qed.

Lemma warning_is_not_ok (s : string) : String.eqb ("warning: " +:+ s) "ok" = false.
Proof. reflexivity. Qed.

(** The record of an entry with a missing field. *)
Lemma final_record_missing (field : string) :
  field ∈ rule_fields r -> ~ present entry field ->
  final_record entry r
  = "error: 缺失字段: " +:+ Py.join ", " (missing_fields entry (rule_fields r)).
Proof.
  intros Hin Hn. unfold final_record.
  destruct (rule_fields r) as [|field0 fs] eqn:E; [inversion Hin|].
  rewrite (checked_record_missing entry field0 fs _ field Hin Hn).
  rewrite error_is_not_ok. now rewrite andb_false_r.
Qed.

(** The record of an entry with every field present, when the rule is not
    the one of [misc] and [www]. *)
Lemma final_record_present (field0 : string) (fs : list string) :
  rule_fields r = field0 :: fs ->
  rule_demote r = false ->
  (forall f, f ∈ rule_fields r -> present entry f) ->
  final_record entry r
  = match rule_format r with
    | Some pat =>
        if negb (Re.re_match pat (get_default entry field0 "null"))
        then "warning: " +:+ field0 +:+ "格式错误"
        else "ok"
    | None => "ok"
    end.
Proof.
  intros E Hd Hall. unfold final_record. rewrite E, Hd. cbn [andb].
  apply checked_record_present. now rewrite <- E.
Qed.

(** What the code does when every required field is present: the record is
    [ok] when the type is not [misc] or [www] and the rule has no format or
    the value of its first required field matches the format. *)
Lemma all_present_first_field_ok :
  (forall f, f ∈ rule_fields r -> present entry f) ->
  (forall pat, rule_format r = Some pat ->
     exists field v, head (rule_fields r) = Some field /\ entry !! field = Some v
                     /\ Re.re_match pat v = true) ->
  Py.lower ty <> "misc" -> Py.lower ty <> "www" ->
  record_of (print_entry_info entry) = Some "ok".
Proof.
  intros Hall Hfmt Hmisc Hwww.
  destruct (print_entry_info_known entry ty Hty r Hr) as [o ->]. cbn [record_of].
  destruct (selected_rule_fields entry ty r Hr) as (field0 & fs & E).
  assert (Hd : rule_demote r = false).
  { destruct (rule_demote r) eqn:D; [|reflexivity].
    apply (selected_rule_demote entry ty r Hr) in D as [?|?]; congruence. }
  rewrite (final_record_present field0 fs E Hd Hall).
  destruct (rule_format r) as [pat|] eqn:F; [|reflexivity].
  destruct (Hfmt pat eq_refl) as (field & v & Hdes & Hv & Hm).
  rewrite E in Hdes. injection Hdes as <-.
  unfold get_default. rewrite Hv. cbn. now rewrite Hm.
Qed.

(** C3: with a required field absent or empty the record is the error that
    lists the missing required fields, all of them and no other, in the
    order of the rule and joined by a comma; the format is not consulted. *)
Theorem missing_fields_error :
  (exists f, f ∈ rule_fields r /\ ~ present entry f) ->
  exists missing,
    record_of (print_entry_info entry)
    = Some ("error: 缺失字段: " +:+ Py.join ", " missing)
    /\ (forall f, f ∈ missing <-> f ∈ rule_fields r /\ ~ present entry f)
    /\ missing `sublist_of` rule_fields r.
Proof.
  intros (field & Hin & Hn).
  exists (missing_fields entry (rule_fields r)). split_and!.
  - destruct (print_entry_info_known entry ty Hty r Hr) as [o ->]. cbn [record_of].
    now rewrite (final_record_missing field).
  - apply elem_of_missing_fields.
  - apply missing_fields_sublist.
Qed.

(** The type written in the rebuilt entry is the lowered type tag, except
    that [misc] is written as [www]. *)
Lemma selected_rule_type :
  rule_type r = (if String.eqb (Py.lower ty) "misc" then "www" else Py.lower ty).
Proof.
  revert Hr. unfold selected_rule.
  destruct (String.eqb (Py.lower ty) "article") eqn:E1.
  { apply String.eqb_eq in E1. rewrite E1.
    destruct (journal_is_arxiv entry); intros [= <-]; reflexivity. }
  destruct (String.eqb (Py.lower ty) "inproceedings") eqn:E2.
  { apply String.eqb_eq in E2. rewrite E2. intros [= <-]; reflexivity. }
  destruct (String.eqb (Py.lower ty) "misc") eqn:E3.
  { intros [= <-]; reflexivity. }
  destruct (String.eqb (Py.lower ty) "www") eqn:E4.
  { apply String.eqb_eq in E4. rewrite E4. intros [= <-]; reflexivity. }
  destruct (String.eqb (Py.lower ty) "book") eqn:E5.
  { apply String.eqb_eq in E5. rewrite E5. intros [= <-]; reflexivity. }
  destruct (String.eqb (Py.lower ty) "techreport") eqn:E6.
  { apply String.eqb_eq in E6. rewrite E6. intros [= <-]; reflexivity. }
  discriminate.
Qed.

(** C4: whatever the record, the rebuilt entry is the header line, then one
    line per required field in the order of the rule, the lines separated by
    a comma and a newline, none after the last line, then the closing brace.
    The header line is an at sign, the type, an opening brace, the identifier
    of the entry ([unnamed] when it has none) and a comma; the type is the
    lowered type tag, [www] for [misc]. The line of a field shows its value,
    or [null] when the entry has no such field. *)
Theorem canonical_rendering :
  update_of (print_entry_info entry)
  = Some (("@" +:+ rule_type r +:+ "{" +:+ default "unnamed" (entry !! "ID")
           +:+ "," +:+ Py.NL)
          +:+ Py.join (String "," Py.NL) (map (canonical_line entry) (rule_fields r))
          +:+ Py.NL +:+ "}")
  /\ rule_type r = (if String.eqb (Py.lower ty) "misc" then "www" else Py.lower ty)
  /\ length (map (canonical_line entry) (rule_fields r)) = length (rule_fields r)
  /\ (forall f v, entry !! f = Some v ->
        canonical_line entry f = Py.TAB +:+ Py.ljust f 10 +:+ " = {" +:+ v +:+ "}")
  /\ (forall f, entry !! f = None ->
        canonical_line entry f = Py.TAB +:+ Py.ljust f 10 +:+ " = {null}").
Proof.
  split_and!.
  - destruct (print_entry_info_known entry ty Hty r Hr) as [o ->]. reflexivity.
  - apply selected_rule_type.
  - apply length_map.
  - intros f v Hv. unfold canonical_line, get_default. now rewrite Hv.
  - intros f Hf. unfold canonical_line, get_default. now rewrite Hf.
Qed.

(** C9: a required field held with an empty value is listed in the error,
    and its line shows the empty value; [null] is written for a field only
    when the entry has no such key. *)
Theorem empty_field_missing_but_rendered (field : string) :
  field ∈ rule_fields r ->
  entry !! field = Some "" ->
  (exists missing,
      record_of (print_entry_info entry)
      = Some ("error: 缺失字段: " +:+ Py.join ", " missing)
      /\ field ∈ missing)
  /\ update_of (print_entry_info entry)
     = Some (canonical_text entry (rule_type r) (rule_fields r))
  /\ canonical_line entry field = Py.TAB +:+ Py.ljust field 10 +:+ " = {}"
  /\ canonical_line entry field ∈ map (canonical_line entry) (rule_fields r)
  /\ (forall f v, entry !! f = Some v -> get_default entry f "null" = v)
  /\ (forall f, entry !! f = None -> get_default entry f "null" = "null").
Proof.
  intros Hin Hv.
  assert (Hn : ~ present entry field).
  { intros (v & Hv' & Hne). congruence. }
  destruct (print_entry_info_known entry ty Hty r Hr) as [o Ho].
  split_and!.
  - exists (missing_fields entry (rule_fields r)). split.
    + rewrite Ho. cbn [record_of]. now rewrite (final_record_missing field).
    + now apply elem_of_missing_fields.
  - now rewrite Ho.
  - unfold canonical_line, get_default. now rewrite Hv.
  - apply list_elem_of_In, in_map, list_elem_of_In, Hin.
  - intros f v Hf. unfold get_default. now rewrite Hf.
  - intros f Hf. unfold get_default. now rewrite Hf.
Qed.

End Outcome.

(** ** The branches without a format *)

(** C5: an entry whose type tag lowers to [misc] or [www] and that has its
    four required fields gets the warning that replaces [ok], and is rebuilt
    with the type [www]. *)
Theorem misc_rewritten_to_www (entry : gmap string string) (ty : string) :
  entry !! "ENTRYTYPE" = Some ty ->
  Py.lower ty = "misc" \/ Py.lower ty = "www" ->
  (forall f, f ∈ ["author"; "year"; "title"; "url"] -> present entry f) ->
  record_of (print_entry_info entry) = Some "warning: misc改www"
  /\ update_of (print_entry_info entry)
     = Some (canonical_text entry "www" ["author"; "year"; "title"; "url"])
  /\ exists rest, canonical_text entry "www" ["author"; "year"; "title"; "url"]
                  = "@www{" +:+ rest.
Proof.
  intros Hty Hmisc Hall.
  assert (Hr : selected_rule entry ty = Some www_rule).
  { unfold selected_rule. destruct Hmisc as [-> | ->]; reflexivity. }
  destruct (print_entry_info_known entry ty Hty www_rule Hr) as [o ->].
  split_and!.
  - cbn [record_of]. unfold final_record. cbn [rule_fields www_rule rule_format rule_demote].
    rewrite (checked_record_present entry "author" ["year"; "title"; "url"] None Hall).
    reflexivity.
  - reflexivity.
  - eexists. unfold canonical_text, header_line. reflexivity.
Qed.

(** C7: a type tag that lowers to none of the six known types gives the
    error of the undefined type and an empty rebuilt entry; no exception is
    raised. *)
Theorem undefined_type (entry : gmap string string) (ty : string) :
  entry !! "ENTRYTYPE" = Some ty ->
  Py.lower ty ∉ known_types ->
  exists original_entry,
    print_entry_info entry = Return ("error: 未定义bibtex类型", "", original_entry).
Proof.
  intros Hty Hun. apply (print_entry_info_no_rule entry ty Hty).
  now apply selected_rule_unknown.
Qed.

(** ** The field given to the format *)

(** X7: What the code does when a format is declared and all fields are present:
    the value of the first required field is matched, and a mismatch is
    reported under the name of that field. *)
Lemma format_mismatch_names_first_field (entry : gmap string string) (ty : string)
    (r : rule) (pat : Re.pattern) (field0 v : string) :
  entry !! "ENTRYTYPE" = Some ty ->
  selected_rule entry ty = Some r ->
  (forall f, f ∈ rule_fields r -> present entry f) ->
  rule_format r = Some pat ->
  head (rule_fields r) = Some field0 ->
  entry !! field0 = Some v ->
  Re.re_match pat v = false ->
  record_of (print_entry_info entry) = Some ("warning: " +:+ field0 +:+ "格式错误").
Proof.
  intros Hty Hr Hall Hfmt Hdes Hv Hm.
  destruct (print_entry_info_known entry ty Hty r Hr) as [o ->]. cbn [record_of].
  destruct (rule_fields r) as [|f0 fs] eqn:E; [discriminate|]. injection Hdes as ->.
  assert (Hd : rule_demote r = false).
  { apply selected_rule_cases in Hr.
    repeat (apply elem_of_cons in Hr as [-> | Hr]; [reflexivity || discriminate|]).
    inversion Hr. }
  rewrite (final_record_present entry r field0 fs E Hd).
  - rewrite Hfmt. unfold get_default. rewrite Hv. cbn. now rewrite Hm.
  - now rewrite E.
Qed.

(** C1: the format of [inproceedings] is matched against [title], the first
    required field, and not against [pages].  With [pages] equal to [1-20]
    and a title ending in a parenthesised group the record is [ok]; with a
    plain title the warning names [title]. *)
Theorem inproceedings_format_checks_title :
  ex_inproceedings_paren_title !! "pages" = Some "1-20"
  /\ Re.re_match paren_format "1-20" = false
  /\ record_of (print_entry_info ex_inproceedings_paren_title) = Some "ok"
  /\ ex_inproceedings !! "pages" = Some "1-20"
  /\ record_of (print_entry_info ex_inproceedings) = Some "warning: title格式错误".
Proof. vm_compute. repeat split. Qed.

(** X8: [print_entry_info] rebuilds an [article] whose [journal] contains
    [arxiv] in any letter case with the four fields of the short form, in the
    order title, author, year, journal, and its record names only these four
    fields: the missing ones among them, else [ok] when the title has the
    format of an arXiv preprint, else the warning on the title. *)
Theorem arxiv_article_short_form (entry : gmap string string) (ty a w b : string) :
  entry !! "ENTRYTYPE" = Some ty ->
  Py.lower ty = "article" ->
  entry !! "journal" = Some (a +:+ w +:+ b) ->
  lower_each w = "arxiv" ->
  update_of (print_entry_info entry)
  = Some ("@article{" +:+ default "unnamed" (entry !! "ID") +:+ "," +:+ Py.NL
          +:+ Py.TAB +:+ "title      = {" +:+ default "null" (entry !! "title")
          +:+ "}," +:+ Py.NL
          +:+ Py.TAB +:+ "author     = {" +:+ default "null" (entry !! "author")
          +:+ "}," +:+ Py.NL
          +:+ Py.TAB +:+ "year       = {" +:+ default "null" (entry !! "year")
          +:+ "}," +:+ Py.NL
          +:+ Py.TAB +:+ "journal    = {" +:+ (a +:+ w +:+ b) +:+ "}" +:+ Py.NL
          +:+ "}")
  /\ (missing_fields entry ["title"; "author"; "year"; "journal"] <> [] ->
      record_of (print_entry_info entry)
      = Some ("error: 缺失字段: "
              +:+ Py.join ", "
                    (missing_fields entry ["title"; "author"; "year"; "journal"])))
  /\ (missing_fields entry ["title"; "author"; "year"; "journal"] = [] ->
      record_of (print_entry_info entry)
      = Some (if Re.re_match arxiv_format (default "null" (entry !! "title"))
              then "ok" else "warning: title格式错误")).
Proof.
  intros Hty Hlow Hj Hw.
  assert (Hr : selected_rule entry ty = Some arxiv_rule).
  { unfold selected_rule, journal_is_arxiv.
    now rewrite Hlow, Hj, (contains_arxiv_any_case a w b Hw). }
  destruct (print_entry_info_known entry ty Hty arxiv_rule Hr) as [o ->].
  cbn [update_of record_of]. split_and!.
  - f_equal. unfold canonical_text, header_line, canonical_line, get_default.
    cbn [rule_type rule_fields arxiv_rule map Py.join]. rewrite Hj.
    cbn [default]. unfold comma_nl, Py.ljust.
    generalize (a +:+ w +:+ b), (default "unnamed" (entry !! "ID")),
      (default "null" (entry !! "title")), (default "null" (entry !! "author")),
      (default "null" (entry !! "year")).
    intros j i t u y. rewrite !str_app_assoc. reflexivity.
  - intros Hm. f_equal. unfold final_record, checked_record.
    cbn [rule_fields rule_format rule_demote arxiv_rule andb].
    destruct (missing_fields entry ["title"; "author"; "year"; "journal"]);
      [congruence | reflexivity].
  - intros Hm. f_equal. unfold final_record, checked_record.
    cbn [rule_fields rule_format rule_demote arxiv_rule andb].
    rewrite Hm. cbn [length Nat.eqb negb]. unfold get_default.
    now destruct (Re.re_match arxiv_format (default "null" (entry !! "title"))).
Qed.

(** C2: an [inproceedings] entry with every required field present and
    non-empty whose [pages] value passes the format of the rule does not get
    [ok]: the format is matched against [title], and the record is the
    warning that names [title]. *)
Theorem inproceedings_pages_pass_title_warns :
  selected_rule ex_inproceedings_paren_pages "inproceedings" = Some inproceedings_rule
  /\ missing_fields ex_inproceedings_paren_pages (rule_fields inproceedings_rule) = []
  /\ ex_inproceedings_paren_pages !! "pages" = Some "1--20 (oral)"
  /\ Re.re_match paren_format "1--20 (oral)" = true
  /\ record_of (print_entry_info ex_inproceedings_paren_pages)
     = Some "warning: title格式错误".
Proof. vm_compute. repeat split. Qed.

(** C6: the short form is selected, but its format is matched against
    [title], not against [journal].  An entry whose [journal] has the
    required form gets the warning because of its title, and an entry whose
    [journal] is just [ARXIV] passes when its title has that form. *)
Theorem arxiv_format_checks_title :
  selected_rule ex_arxiv "article" = Some arxiv_rule
  /\ ex_arxiv !! "journal" = Some "arXiv preprint arXiv:1706.03762"
  /\ Re.re_match arxiv_format "arXiv preprint arXiv:1706.03762" = true
  /\ record_of (print_entry_info ex_arxiv) = Some "warning: title格式错误"
  /\ selected_rule ex_arxiv_title_as_journal "article" = Some arxiv_rule
  /\ Re.re_match arxiv_format "ARXIV" = false
  /\ record_of (print_entry_info ex_arxiv_title_as_journal) = Some "ok".
Proof. vm_compute. repeat split. Qed.

(** ** The consolidated output *)

Section Output.

Variable output_file : string.

(** An entry of an unknown type writes nothing. *)
Lemma write_entry_unknown (entry : gmap string string) (ty : string) (w : world) :
  entry !! "ENTRYTYPE" = Some ty ->
  Py.lower ty ∉ known_types ->
  write_update output_file entry w = (Return tt, w).
Proof.
  intros Hty Hun.
  destruct (print_entry_info_no_rule entry ty Hty (selected_rule_unknown entry ty Hun))
    as [o Ho].
  unfold write_update, mbind, M_bind, lift. now rewrite Ho.
Qed.

Lemma forM_skip (l1 l2 : list (gmap string string)) (entry : gmap string string)
    (body : gmap string string -> M unit) :
  (forall w, body entry w = (Return tt, w)) ->
  forall w, forM_ (l1 ++ entry :: l2)%list body w = forM_ (l1 ++ l2)%list body w.
Proof.
  intros Hskip. induction l1 as [|x l1 IH]; intros w.
  - cbn [app forM_]. unfold mbind, M_bind. now rewrite Hskip.
  - cbn [app forM_]. unfold mbind, M_bind.
    destruct (body x w) as [[[]|e] w']; [apply IH | reflexivity].
Qed.

End Output.

(** [print_entry_info] returns for every entry that has a type tag. *)
Lemma print_entry_info_returns (entry : gmap string string) (ty : string) :
  entry !! "ENTRYTYPE" = Some ty ->
  exists record update_entry original_entry,
    print_entry_info entry = Return (record, update_entry, original_entry).
Proof.
  intros Hty. destruct (selected_rule entry ty) as [r|] eqn:Hr.
  - destruct (print_entry_info_known entry ty Hty r Hr) as [o Ho]. eauto.
  - destruct (print_entry_info_no_rule entry ty Hty Hr) as [o Ho]. eauto.
Qed.

(** One turn of the loop appends the rebuilt entry, if it is not empty. *)
Lemma write_update_step (output_file : string) (entry : gmap string string)
    (ty c : string) (w : world) :
  entry !! "ENTRYTYPE" = Some ty ->
  files w !! output_file = Some (TextFile c) ->
  write_update output_file entry w
  = (Return tt,
     mkWorld (<[output_file := TextFile (c +:+ output_text [entry])]> (files w))
             (stdout w)).
Proof.
  intros Hty Hc.
  destruct (print_entry_info_returns entry ty Hty) as (rec & u & o & Hp).
  unfold write_update, mbind, M_bind, lift. cbn [output_text]. rewrite Hp.
  rewrite str_app_empty_r. destruct (Py.truthy u).
  - unfold write. rewrite Hc. reflexivity.
  - unfold mret, M_ret. rewrite str_app_empty_r, insert_id by done. now destruct w.
Qed.

Lemma output_text_cons (entry : gmap string string) (rest : list (gmap string string))
    (ty : string) :
  entry !! "ENTRYTYPE" = Some ty ->
  output_text (entry :: rest) = output_text [entry] +:+ output_text rest.
Proof.
  intros Hty.
  destruct (print_entry_info_returns entry ty Hty) as (rec & u & o & Hp).
  cbn [output_text]. rewrite Hp. now rewrite str_app_empty_r.
Qed.

(** When every entry has a type tag, [save_all_updates] ends normally and the
    output file holds [output_text]. *)
Lemma forM_write_update (output_file : string) (entries : list (gmap string string)) :
  (forall entry, entry ∈ entries -> is_Some (entry !! "ENTRYTYPE")) ->
  forall (c : string) (w : world),
    files w !! output_file = Some (TextFile c) ->
    forM_ entries (write_update output_file) w
    = (Return tt,
       mkWorld (<[output_file := TextFile (c +:+ output_text entries)]> (files w))
               (stdout w)).
Proof.
  induction entries as [|entry rest IH]; intros Hall c w Hc.
  - cbn [forM_ output_text]. rewrite str_app_empty_r. rewrite insert_id by done.
    now destruct w.
  - destruct (Hall entry ltac:(left)) as [ty Hty].
    cbn [forM_]. unfold mbind, M_bind.
    rewrite (write_update_step output_file entry ty c w Hty Hc).
    rewrite (IH ltac:(intros e He; apply Hall; now right)
                (c +:+ output_text [entry])).
    + cbn [files stdout]. rewrite insert_insert_eq.
      rewrite (output_text_cons entry rest ty Hty). now rewrite str_app_assoc.
    + cbn [files]. apply lookup_insert_eq.
Qed.

Lemma save_all_updates_output (output_file : string)
    (entries : list (gmap string string)) (w : world) :
  (forall entry, entry ∈ entries -> is_Some (entry !! "ENTRYTYPE")) ->
  save_all_updates entries output_file w
  = (Return tt,
     mkWorld (<[output_file := TextFile (output_text entries)]> (files w)) (stdout w)).
Proof.
  intros Hall. unfold save_all_updates, mbind, M_bind, open_w, put_file.
  rewrite (forM_write_update output_file entries Hall "").
  - cbn [files stdout]. now rewrite insert_insert_eq, str_app_empty_l.
  - cbn [files]. apply lookup_insert_eq.
Qed.

(** C10: an entry of an unknown type contributes nothing to the output file,
    neither text nor separator: the run of [save_all_updates] is the one on
    the list without that entry. *)
Theorem unknown_type_omitted (l1 l2 : list (gmap string string))
    (entry : gmap string string) (ty output_file : string) (w : world) :
  entry !! "ENTRYTYPE" = Some ty ->
  Py.lower ty ∉ known_types ->
  save_all_updates (l1 ++ entry :: l2)%list output_file w
  = save_all_updates (l1 ++ l2)%list output_file w.
Proof.
  intros Hty Hun. unfold save_all_updates, mbind, M_bind.
  destruct (open_w output_file w) as [[[]|e] w']; [|reflexivity].
  apply forM_skip. intros w0. now apply (write_entry_unknown output_file entry ty).
Qed.

(** ** The driver *)

Section DriverFacts.

Variable bibtexparser_load : file -> string + list (gmap string string).

(** C8: when parsing gives no entry (the input is absent, the parser fails,
    or it returns an empty list), [main] ends normally with the message
    [未找到任何文献记录] printed last, the output file is left as it was, and
    no spreadsheet is written: the only change to the files is the removal
    of the spreadsheet of an earlier run, done before parsing. *)
Theorem main_no_records (w : world) :
  (forall f entries, files w !! "bib.ref" = Some f ->
     bibtexparser_load f = inr entries -> entries = []) ->
  exists msgs,
    main bibtexparser_load w
    = (Return tt,
       mkWorld (delete "bibtex_records.xlsx" (files w))
               (stdout w ++ msgs ++ ["未找到任何文献记录"]))
    /\ delete "bibtex_records.xlsx" (files w) !! "updated_references.bib"
       = files w !! "updated_references.bib"
    /\ delete "bibtex_records.xlsx" (files w) !! "bibtex_records.xlsx" = None.
Proof.
  intros Hempty.
  set (w1 := mkWorld (delete "bibtex_records.xlsx" (files w)) (stdout w)).
  assert (Hreset :
    (ex ← path_exists "bibtex_records.xlsx";
     (if ex : bool then os_remove "bibtex_records.xlsx" else mret tt)) w
    = (Return tt, w1)).
  { unfold mbind, M_bind, path_exists. case_bool_decide as Hex.
    - reflexivity.
    - unfold mret, M_ret, w1. rewrite delete_id; [now destruct w|].
      now apply eq_None_not_Some. }
  assert (Hparse : exists msgs,
    parse_bib_file bibtexparser_load "bib.ref" w1
    = (Return [], mkWorld (files w1) (stdout w ++ msgs))).
  { unfold parse_bib_file.
    assert (Hl : files w1 !! "bib.ref" = files w !! "bib.ref")
      by (apply lookup_delete_ne; discriminate).
    rewrite Hl. destruct (files w !! "bib.ref") as [f|] eqn:Hf.
    - destruct (bibtexparser_load f) as [e|entries] eqn:Hload.
      + eexists [_]. reflexivity.
      + rewrite (Hempty f entries eq_refl Hload). exists [].
        now rewrite app_nil_r.
    - eexists [_]. reflexivity. }
  destruct Hparse as [msgs Hparse]. exists msgs. split_and!.
  - unfold main. unfold mbind at 1 2. unfold M_bind at 1 2.
    unfold mbind, M_bind in Hreset.
    destruct (path_exists "bibtex_records.xlsx" w) as [[ex|e] w0]; [|discriminate].
    rewrite Hreset. unfold mbind at 1. unfold M_bind at 1. rewrite Hparse.
    cbn [length Nat.eqb negb]. unfold print. cbn [files stdout].
    now rewrite <- List.app_assoc.
  - apply lookup_delete_ne. discriminate.
  - apply lookup_delete_eq.
Qed.

End DriverFacts.

(** * Further properties *)

(** ** Exceptions and inputs of [print_entry_info] *)

Lemma print_entry_info_untyped (entry : gmap string string) :
  entry !! "ENTRYTYPE" = None ->
  print_entry_info entry = Raise (KeyError "ENTRYTYPE").
Proof. intros Hty. unfold print_entry_info, getitem. now rewrite Hty. Qed.

(** X1: [print_entry_info] raises only for an entry without a type tag, and then
    it raises [KeyError('ENTRYTYPE')]. *)
Theorem print_entry_info_raises_iff (entry : gmap string string) (e : exn) :
  print_entry_info entry = Raise e
  <-> e = KeyError "ENTRYTYPE" /\ entry !! "ENTRYTYPE" = None.
Proof.
  split.
  - intros Hraise. destruct (entry !! "ENTRYTYPE") as [ty|] eqn:Hty.
    + destruct (print_entry_info_returns entry ty Hty) as (rec & u & o & Hp).
      congruence.
    + unfold print_entry_info, getitem in Hraise. rewrite Hty in Hraise.
      cbn in Hraise. now injection Hraise as <-.
  - intros [-> Hty]. now apply print_entry_info_untyped.
Qed.

Section Agreement.

Variables e1 e2 : gmap string string.

Lemma missing_fields_ext (fields : list string) :
  (forall f, f ∈ fields -> e1 !! f = e2 !! f) ->
  missing_fields e1 fields = missing_fields e2 fields.
Proof.
  induction fields as [|f fields IH]; intros Hag; [reflexivity|].
  assert (Hf : get_truthy e1 f = get_truthy e2 f).
  { unfold get_truthy. now rewrite (Hag f) by left. }
  unfold missing_fields in *. cbn [List.filter]. rewrite Hf, IH; [reflexivity|].
  intros g Hg. apply Hag. now right.
Qed.

Lemma final_record_ext (r : rule) :
  (forall f, f ∈ rule_fields r -> e1 !! f = e2 !! f) ->
  final_record e1 r = final_record e2 r.
Proof.
  intros Hag. unfold final_record.
  destruct (rule_fields r) as [|field0 fs]; [reflexivity|].
  unfold checked_record. rewrite (missing_fields_ext _ Hag).
  unfold get_default. now rewrite (Hag field0) by left.
Qed.

Lemma canonical_text_ext (entry_type : string) (fields : list string) :
  e1 !! "ID" = e2 !! "ID" ->
  (forall f, f ∈ fields -> e1 !! f = e2 !! f) ->
  canonical_text e1 entry_type fields = canonical_text e2 entry_type fields.
Proof.
  intros Hid Hag.
  assert (Hm : map (canonical_line e1) fields = map (canonical_line e2) fields).
  { apply map_ext_in. intros f Hf%list_elem_of_In.
    unfold canonical_line, get_default. now rewrite (Hag f Hf). }
  unfold canonical_text, header_line, get_default. now rewrite Hid, Hm.
Qed.

Lemma selected_rule_ext (ty1 ty2 : string) :
  Py.lower ty1 = Py.lower ty2 ->
  e1 !! "journal" = e2 !! "journal" ->
  selected_rule e1 ty1 = selected_rule e2 ty2.
Proof.
  intros Hty Hj. unfold selected_rule, journal_is_arxiv. now rewrite Hty, Hj.
Qed.

(** The record and the rebuilt entry depend on the entry through the selected
    rule, the identifier and the required fields only. *)
Lemma outcome_ext (ty1 ty2 : string) :
  e1 !! "ENTRYTYPE" = Some ty1 ->
  e2 !! "ENTRYTYPE" = Some ty2 ->
  selected_rule e1 ty1 = selected_rule e2 ty2 ->
  e1 !! "ID" = e2 !! "ID" ->
  (forall r f, selected_rule e1 ty1 = Some r -> f ∈ rule_fields r -> e1 !! f = e2 !! f) ->
  record_of (print_entry_info e1) = record_of (print_entry_info e2)
  /\ update_of (print_entry_info e1) = update_of (print_entry_info e2).
Proof.
  intros H1 H2 Hsel Hid Hag.
  destruct (selected_rule e1 ty1) as [r|] eqn:Hr.
  - destruct (print_entry_info_known e1 ty1 H1 r Hr) as [o1 ->].
    destruct (print_entry_info_known e2 ty2 H2 r (eq_sym Hsel)) as [o2 ->].
    cbn [record_of update_of].
    assert (Hagr : forall f, f ∈ rule_fields r -> e1 !! f = e2 !! f)
      by (intros f; now apply Hag).
    rewrite (final_record_ext r Hagr).
    now rewrite (canonical_text_ext (rule_type r) (rule_fields r) Hid Hagr).
  - destruct (print_entry_info_no_rule e1 ty1 H1 Hr) as [o1 ->].
    destruct (print_entry_info_no_rule e2 ty2 H2 (eq_sym Hsel)) as [o2 ->].
    split; reflexivity.
Qed.

End Agreement.

Lemma rule_fields_no_type (entry : gmap string string) (ty : string) (r : rule) :
  selected_rule entry ty = Some r ->
  ("ENTRYTYPE" ∉ rule_fields r) /\ ("ID" ∉ rule_fields r).
Proof.
  intros Hr%selected_rule_cases.
  repeat (apply elem_of_cons in Hr as [-> | Hr];
          [split; intros Hin; cbn in Hin;
           repeat (apply elem_of_cons in Hin as [Hin | Hin]; [discriminate|]);
           inversion Hin |]).
  inversion Hr.
Qed.

(** X2: The letter case of the type tag has no effect on the record and on the
    rebuilt entry: they are those of any entry that differs only in a type tag
    with the same lower-case form. *)
Theorem type_tag_case_insensitive (entry : gmap string string) (ty ty' : string) :
  entry !! "ENTRYTYPE" = Some ty ->
  Py.lower ty' = Py.lower ty ->
  record_of (print_entry_info (<["ENTRYTYPE" := ty']> entry))
  = record_of (print_entry_info entry)
  /\ update_of (print_entry_info (<["ENTRYTYPE" := ty']> entry))
     = update_of (print_entry_info entry).
Proof.
  intros Hty Hlow.
  assert (Hsel : selected_rule (<["ENTRYTYPE" := ty']> entry) ty' = selected_rule entry ty).
  { apply selected_rule_ext; [done|]. now rewrite lookup_insert_ne. }
  apply (outcome_ext _ _ ty' ty).
  - apply lookup_insert_eq.
  - exact Hty.
  - exact Hsel.
  - now rewrite lookup_insert_ne.
  - intros r f Hr Hf. rewrite Hsel in Hr.
    destruct (rule_fields_no_type entry ty r Hr) as [Hno _].
    rewrite lookup_insert_ne; [reflexivity|]. intros <-. contradiction.
Qed.

(** X3: A field that the selected rule does not require takes no part: giving it
    any value changes neither the record nor the rebuilt entry. *)
Theorem other_fields_ignored (entry : gmap string string) (ty g v : string) (r : rule) :
  entry !! "ENTRYTYPE" = Some ty ->
  selected_rule entry ty = Some r ->
  g ∉ rule_fields r ->
  g <> "ENTRYTYPE" -> g <> "ID" ->
  record_of (print_entry_info (<[g := v]> entry)) = record_of (print_entry_info entry)
  /\ update_of (print_entry_info (<[g := v]> entry)) = update_of (print_entry_info entry).
Proof.
  intros Hty Hr Hg Hnty Hnid.
  assert (Hsel : selected_rule (<[g := v]> entry) ty = selected_rule entry ty).
  { unfold selected_rule in *.
    destruct (String.eqb (Py.lower ty) "article"); [|reflexivity].
    assert (Hj : g <> "journal").
    { intros ->. apply Hg. injection Hr as <-.
      destruct (journal_is_arxiv entry); cbn; set_solver. }
    unfold journal_is_arxiv. now rewrite lookup_insert_ne. }
  apply (outcome_ext _ _ ty ty).
  - now rewrite lookup_insert_ne.
  - exact Hty.
  - exact Hsel.
  - now rewrite lookup_insert_ne.
  - intros r' f Hr' Hf. rewrite Hsel, Hr in Hr'. injection Hr' as <-.
    rewrite lookup_insert_ne; [reflexivity|]. intros <-. contradiction.
Qed.

(** ** The three kinds of record *)

Lemma undefined_is_not_ok : String.eqb "error: 未定义bibtex类型" "ok" = false.
Proof. reflexivity. Qed.

(** X4: The record [ok] is given to complete entries only: the type is known and
    is not [misc] or [www], every required field is present and non-empty,
    and the first required field matches the format of the rule. *)
Theorem ok_only_if_complete (entry : gmap string string) :
  record_of (print_entry_info entry) = Some "ok" ->
  exists ty r,
    entry !! "ENTRYTYPE" = Some ty
    /\ selected_rule entry ty = Some r
    /\ (forall f, f ∈ rule_fields r -> present entry f)
    /\ (forall pat, rule_format r = Some pat ->
          exists field v, head (rule_fields r) = Some field
                          /\ entry !! field = Some v
                          /\ Re.re_match pat v = true)
    /\ Py.lower ty <> "misc" /\ Py.lower ty <> "www".
Proof.
  intros Hok.
  destruct (entry !! "ENTRYTYPE") as [ty|] eqn:Hty.
  2:{ unfold print_entry_info, getitem in Hok. rewrite Hty in Hok. discriminate. }
  destruct (selected_rule entry ty) as [r|] eqn:Hr.
  2:{ destruct (print_entry_info_no_rule entry ty Hty Hr) as [o Ho].
      rewrite Ho in Hok. discriminate. }
  destruct (print_entry_info_known entry ty Hty r Hr) as [o Ho].
  rewrite Ho in Hok. cbn [record_of] in Hok. injection Hok as Hok.
  destruct (selected_rule_fields entry ty r Hr) as (field0 & fs & E).
  unfold final_record in Hok. rewrite E in Hok. cbn zeta in Hok.
  assert (Hd : rule_demote r = false).
  { destruct (rule_demote r); [|reflexivity]. cbn [andb] in Hok.
    destruct (String.eqb_spec (checked_record entry field0 fs (rule_format r)) "ok");
      [discriminate | contradiction]. }
  rewrite Hd in Hok. cbn [andb] in Hok.
  assert (Hall : forall f, f ∈ rule_fields r -> present entry f).
  { intros f Hf. destruct (get_truthy entry f) eqn:Ht; [now apply get_truthy_present|].
    assert (Hn : ~ present entry f).
    { intros Hp%get_truthy_present. congruence. }
    rewrite E in Hf. rewrite (checked_record_missing entry field0 fs _ f Hf Hn) in Hok.
    pose proof (error_is_not_ok (Py.join ", " (missing_fields entry (field0 :: fs)))) as Hne.
    rewrite Hok in Hne. discriminate. }
  exists ty, r. split_and!; try done.
  - intros pat Hpat. rewrite checked_record_present in Hok by (now rewrite <- E).
    rewrite Hpat in Hok.
    destruct (Hall field0) as (v & Hv & _); [rewrite E; left|].
    exists field0, v. split_and!; [now rewrite E | done |].
    unfold get_default in Hok. rewrite Hv in Hok. cbn in Hok.
    destruct (Re.re_match pat v); [reflexivity|]. cbn [negb] in Hok.
    pose proof (warning_is_not_ok (field0 +:+ "格式错误")) as Hne.
    rewrite Hok in Hne. discriminate.
  - intros Hm. assert (rule_demote r = true); [|congruence].
    apply (selected_rule_demote entry ty r Hr). now left.
  - intros Hm. assert (rule_demote r = true); [|congruence].
    apply (selected_rule_demote entry ty r Hr). now right.
Qed.

(** X5: The rebuilt entry is empty for the unknown types and for no other
    entry. *)
Theorem rebuilt_empty_iff_unknown (entry : gmap string string) (ty : string) :
  entry !! "ENTRYTYPE" = Some ty ->
  update_of (print_entry_info entry) = Some "" <-> Py.lower ty ∉ known_types.
Proof.
  intros Hty. split.
  - intros Hu Hk. apply selected_rule_known with (entry := entry) in Hk as [r Hr].
    destruct (print_entry_info_known entry ty Hty r Hr) as [o Ho].
    rewrite Ho in Hu. cbn [update_of] in Hu. discriminate.
  - intros Hun.
    destruct (print_entry_info_no_rule entry ty Hty (selected_rule_unknown entry ty Hun))
      as [o ->].
    reflexivity.
Qed.

(** The record of a known type is the error of the missing fields, or a
    warning, or [ok]; the first exactly when a required field is missing. *)
Lemma final_record_kinds (entry : gmap string string) (ty : string) (r : rule) :
  selected_rule entry ty = Some r ->
  ((exists f, f ∈ rule_fields r /\ ~ present entry f)
   /\ exists s, final_record entry r = "error: 缺失字段: " +:+ s)
  \/ ((forall f, f ∈ rule_fields r -> present entry f)
      /\ (final_record entry r = "ok"
          \/ exists s, final_record entry r = "warning: " +:+ s)).
Proof.
  intros Hr. destruct (selected_rule_fields entry ty r Hr) as (field0 & fs & E).
  destruct (missing_fields entry (rule_fields r)) as [|f l] eqn:Hm.
  - right.
    assert (Hall : forall f, f ∈ rule_fields r -> present entry f).
    { intros f Hf. destruct (get_truthy entry f) eqn:Ht; [now apply get_truthy_present|].
      assert (Hin : f ∈ missing_fields entry (rule_fields r)).
      { apply elem_of_missing_fields. split; [done|].
        intros Hp%get_truthy_present. congruence. }
      rewrite Hm in Hin. inversion Hin. }
    split; [exact Hall|]. unfold final_record. rewrite E.
    rewrite checked_record_present by (now rewrite <- E).
    destruct (rule_format r) as [pat|].
    + destruct (negb (Re.re_match pat (get_default entry field0 "null"))).
      * rewrite warning_is_not_ok, andb_false_r. right. eauto.
      * destruct (rule_demote r); cbn; [right; now exists "misc改www" | now left].
    + destruct (rule_demote r); cbn; [right; now exists "misc改www" | now left].
  - left.
    assert (Hf : f ∈ missing_fields entry (rule_fields r)) by (rewrite Hm; left).
    apply elem_of_missing_fields in Hf as [Hin Hn].
    split; [eauto|]. rewrite (final_record_missing entry r f Hin Hn). eauto.
Qed.

(** X6: The fill of a logged row tells the outcome: the row is red exactly when
    the type is unknown or a required field is missing, and it is left
    without fill exactly when the record is [ok]. *)
Theorem fill_reflects_outcome (entry : gmap string string) (ty record : string) :
  entry !! "ENTRYTYPE" = Some ty ->
  record_of (print_entry_info entry) = Some record ->
  (fill_of record = RedFill
   <-> (Py.lower ty ∉ known_types
        \/ exists r f, selected_rule entry ty = Some r /\ f ∈ rule_fields r
                       /\ ~ present entry f))
  /\ (fill_of record = NoFill <-> record = "ok").
Proof.
  intros Hty Hrec.
  destruct (selected_rule entry ty) as [r|] eqn:Hr.
  - destruct (print_entry_info_known entry ty Hty r Hr) as [o Ho].
    rewrite Ho in Hrec. cbn [record_of] in Hrec. injection Hrec as <-.
    assert (Hk : Py.lower ty ∈ known_types) by (apply (selected_rule_known entry); eauto).
    destruct (final_record_kinds entry ty r Hr)
      as [[(f & Hf & Hn) [s ->]] | [Hall [-> | [s ->]]]].
    + split; split; try discriminate; try reflexivity. intros _. right. eauto.
    + split; split; try discriminate; try reflexivity.
      intros [Hun | (r' & f & [= <-] & Hf & Hn)]; [contradiction|].
      destruct Hn. now apply Hall.
    + split; split; try discriminate.
      intros [Hun | (r' & f & [= <-] & Hf & Hn)]; [contradiction|].
      destruct Hn. now apply Hall.
  - destruct (print_entry_info_no_rule entry ty Hty Hr) as [o Ho].
    rewrite Ho in Hrec. cbn [record_of] in Hrec. injection Hrec as <-.
    split; split; try discriminate; try reflexivity. intros _. left.
    intros Hk. apply selected_rule_known with (entry := entry) in Hk as [r' Hr'].
    congruence.
Qed.

(** ** [save_to_excel] *)

Section SaveToExcel.

Variables original updated record excel_path : string.

Lemma column_width_le (col : list string) (n : nat) :
  column_width col = Return n -> n <= 100.
Proof.
  unfold column_width. destruct (List.filter Py.truthy col); [discriminate|].
  intros [= <-]. apply Nat.le_min_r.
Qed.

Lemma truthy_nonempty (s : string) : Py.truthy s = true <-> s <> "".
Proof. destruct s; cbn; split; congruence. Qed.

Lemma column_width_filled (col : list string) :
  (exists x, x ∈ col /\ x <> "") ->
  column_width col = Return (width_of col).
Proof.
  intros (x & Hin & Hx). unfold width_of, column_width.
  destruct (List.filter Py.truthy col) eqn:E; [|reflexivity].
  assert (Hf : In x (List.filter Py.truthy col)).
  { apply filter_In. split; [now apply list_elem_of_In | now apply truthy_nonempty]. }
  rewrite E in Hf. destruct Hf.
Qed.

Lemma column_width_blank (col : list string) :
  (forall x, x ∈ col -> x = "") -> column_width col = Raise ValueError.
Proof.
  intros Hall. unfold column_width.
  destruct (List.filter Py.truthy col) as [|v vs] eqn:E; [reflexivity|].
  assert (Hf : In v (List.filter Py.truthy col)) by (rewrite E; now left).
  apply filter_In in Hf as [Hin%list_elem_of_In Ht].
  rewrite (Hall v Hin) in Ht. discriminate.
Qed.

Lemma column_cell_filled (cell : row -> string) (rs : list row) :
  (exists r, r ∈ rs /\ cell r <> "") -> exists x, x ∈ map cell rs /\ x <> "".
Proof.
  intros (r & Hin & Hr). exists (cell r). split; [|done].
  apply list_elem_of_In, in_map, list_elem_of_In, Hin.
Qed.

Lemma check_string_legal (s : string) :
  legal_text s -> check_string s = Return (cell_text s).
Proof. intros Hs. unfold check_string. cbv zeta. now rewrite Hs. Qed.

Lemma check_string_illegal (s : string) :
  ~ legal_text s -> check_string s = Raise IllegalCharacterError.
Proof.
  intros Hs. unfold check_string, legal_text in *. cbv zeta.
  now destruct (all_chars _ (cell_text s)).
Qed.

Lemma save_to_excel_run (w : world) (wb : workbook) :
  (files w !! excel_path = None /\ wb = mkWorkbook [header_row] [])
  \/ files w !! excel_path = Some (XlsxFile wb) ->
  legal_text original -> legal_text updated -> legal_text record ->
  columns_filled (next_rows original updated record wb) ->
  save_to_excel original updated record excel_path w
  = (Return tt,
     mkWorld (<[excel_path :=
                  XlsxFile (mkWorkbook (next_rows original updated record wb)
                              (sheet_widths (next_rows original updated record wb)))]>
                (files w))
             (stdout w)).
Proof.
  intros Hwb Ho Hu Hr (HA & HB & HC).
  apply check_string_legal in Ho, Hu, Hr.
  apply (column_cell_filled original_cell) in HA.
  apply (column_cell_filled updated_cell) in HB.
  apply (column_cell_filled record_cell) in HC.
  apply column_width_filled in HA, HB, HC.
  unfold sheet_widths. unfold next_rows, fill_of in *.
  unfold save_to_excel, mbind, M_bind, path_exists, lift, mret, M_ret, put_file.
  destruct Hwb as [[Hnone ->] | Hsome].
  - rewrite Hnone. rewrite bool_decide_eq_false_2 by (intros [? [=]]).
    cbv beta iota zeta. rewrite Ho, Hu, Hr. cbv beta iota zeta.
    rewrite HA, HB, HC. reflexivity.
  - rewrite bool_decide_eq_true_2 by (rewrite Hsome; eauto).
    cbv beta iota zeta. rewrite Hsome. rewrite Ho, Hu, Hr. cbv beta iota zeta.
    rewrite HA, HB, HC. reflexivity.
Qed.

End SaveToExcel.

Lemma next_rows_append (original updated record : string) (wb : workbook) :
  rows wb <> [] ->
  next_rows original updated record wb
  = (rows wb ++ [mkRow (cell_text original) (cell_text updated) (cell_text record)
                       (fill_of record)])%list.
Proof.
  intros Hne. unfold next_rows, max_row.
  destruct (rows wb) as [|r rs] eqn:E; [congruence|].
  cbn [length]. replace (Nat.max 1 (S (length rs)) + 1 - 1 - S (length rs)) with 0 by lia.
  reflexivity.
Qed.

Lemma columns_filled_app (rs rs' : list row) :
  columns_filled rs -> columns_filled (rs ++ rs').
Proof.
  intros ((a & Ha & Ha') & (b & Hb & Hb') & (c & Hc & Hc')).
  split_and!; [exists a | exists b | exists c]; (split; [apply elem_of_app; now left | done]).
Qed.

Lemma columns_filled_header (rs : list row) : columns_filled (header_row :: rs).
Proof. split_and!; exists header_row; (split; [left | discriminate]). Qed.

(** X9: On a path that holds no file, and for texts that the cells take,
    [save_to_excel] returns and creates the workbook: the header row, then
    the row of the call, each text cut to the first 32767 characters, with
    the fill of its record, and the widths of the three columns. *)
Theorem save_to_excel_creates (original updated record excel_path : string) (w : world) :
  files w !! excel_path = None ->
  legal_text original -> legal_text updated -> legal_text record ->
  save_to_excel original updated record excel_path w
  = (Return tt,
     mkWorld
       (<[excel_path :=
            XlsxFile (mkWorkbook
              [header_row;
               mkRow (cell_text original) (cell_text updated) (cell_text record)
                     (fill_of record)]
              (sheet_widths
                 [header_row;
                  mkRow (cell_text original) (cell_text updated) (cell_text record)
                        (fill_of record)]))]>
          (files w))
       (stdout w)).
Proof.
  intros Hnone Ho Hu Hr.
  rewrite (save_to_excel_run original updated record excel_path w
             (mkWorkbook [header_row] [])).
  - reflexivity.
  - now left.
  - exact Ho.
  - exact Hu.
  - exact Hr.
  - apply columns_filled_header.
Qed.

(** X10: On a workbook that has rows, each column with a non-empty cell, and
    for texts that the cells take, [save_to_excel] adds one row at the end,
    each text cut to the first 32767 characters, keeps the rows that were
    there and sets the widths anew. *)
Theorem save_to_excel_appends (original updated record excel_path : string)
    (w : world) (wb : workbook) :
  files w !! excel_path = Some (XlsxFile wb) ->
  rows wb <> [] ->
  columns_filled (rows wb) ->
  legal_text original -> legal_text updated -> legal_text record ->
  save_to_excel original updated record excel_path w
  = (Return tt,
     mkWorld
       (<[excel_path :=
            XlsxFile (mkWorkbook
              (rows wb ++ [mkRow (cell_text original) (cell_text updated)
                                 (cell_text record) (fill_of record)])
              (sheet_widths
                 (rows wb ++ [mkRow (cell_text original) (cell_text updated)
                                    (cell_text record) (fill_of record)])))]>
          (files w))
       (stdout w)).
Proof.
  intros Hwb Hne Hfilled Ho Hu Hr.
  rewrite (save_to_excel_run original updated record excel_path w wb).
  - now rewrite next_rows_append.
  - now right.
  - exact Ho.
  - exact Hu.
  - exact Hr.
  - rewrite next_rows_append by done. now apply columns_filled_app.
Qed.

(** X11: A path that holds a file that is no workbook makes [save_to_excel] raise
    and change nothing. *)
Theorem save_to_excel_not_a_workbook (original updated record excel_path content : string)
    (w : world) :
  files w !! excel_path = Some (TextFile content) ->
  exists e, save_to_excel original updated record excel_path w = (Raise e, w).
Proof.
  intros Hf. eexists.
  unfold save_to_excel, mbind, M_bind, path_exists.
  rewrite bool_decide_eq_true_2 by (rewrite Hf; eauto).
  cbv beta iota. now rewrite Hf.
Qed.

Lemma column_width_raises (col : list string) (e : exn) :
  column_width col = Raise e -> e = ValueError.
Proof.
  unfold column_width. destruct (List.filter Py.truthy col); [|discriminate].
  now intros [= <-].
Qed.

Lemma cell_text_empty : cell_text "" = "".
Proof. reflexivity. Qed.

(** X12: When the column [Updated] of the workbook has no non-empty cell, the
    new updated text is empty and the other two texts are taken by the cells,
    the width of that column has nothing to take the maximum of:
    [save_to_excel] raises [ValueError] and saves nothing. *)
Theorem save_to_excel_empty_column (original record excel_path : string)
    (w : world) (wb : workbook) :
  files w !! excel_path = Some (XlsxFile wb) ->
  (forall r, r ∈ rows wb -> updated_cell r = "") ->
  legal_text original -> legal_text record ->
  save_to_excel original "" record excel_path w = (Raise ValueError, w).
Proof.
  intros Hf Hblank Ho Hr.
  apply check_string_legal in Ho, Hr.
  unfold save_to_excel, mbind, M_bind, path_exists, lift.
  rewrite bool_decide_eq_true_2 by (rewrite Hf; eauto).
  cbv beta iota zeta. rewrite Hf. rewrite Ho, Hr.
  change (check_string "") with (Return (A := string) ""). cbv beta iota zeta.
  match goal with
  | |- context [column_width (map original_cell ?rs)] =>
      destruct (column_width (map original_cell rs)) as [n|e] eqn:EA
  end.
  - rewrite column_width_blank; [reflexivity|].
    intros x Hx. apply list_elem_of_In, in_map_iff in Hx as (r & <- & Hr'%list_elem_of_In).
    apply elem_of_app in Hr' as [Hr' | Hr']; [now apply Hblank|].
    apply elem_of_app in Hr' as [Hr' | Hr'].
    + apply elem_of_replicate in Hr' as [-> _]. reflexivity.
    + apply list_elem_of_singleton in Hr' as ->. reflexivity.
  - now rewrite (column_width_raises _ e EA).
Qed.

Lemma check_string_returns (s v : string) :
  check_string s = Return v -> v = cell_text s.
Proof.
  unfold check_string. cbv zeta.
  destruct (all_chars _ (cell_text s)); [now intros [= <-] | discriminate].
Qed.

(** X13: Every call that returns leaves at the path a workbook whose last row
    holds the three texts of the call, each cut to the first 32767
    characters, with the fill of the record, and whose three column widths
    are at most 100. *)
Theorem save_to_excel_widths_bounded (original updated record excel_path : string)
    (w w' : world) :
  save_to_excel original updated record excel_path w = (Return tt, w') ->
  exists wb,
    files w' !! excel_path = Some (XlsxFile wb)
    /\ last (rows wb)
       = Some (mkRow (cell_text original) (cell_text updated) (cell_text record)
                     (fill_of record))
    /\ length (widths wb) = 3
    /\ (forall n, n ∈ widths wb -> n <= 100).
Proof.
  unfold save_to_excel, mbind, M_bind, path_exists, lift, mret, M_ret, put_file.
  cbv beta iota zeta.
  intros Hrun.
  destruct (bool_decide (is_Some (files w !! excel_path))).
  - destruct (files w !! excel_path) as [[c|wb]|]; try discriminate.
    destruct (check_string original) as [vo|] eqn:Eo; [|discriminate].
    destruct (check_string updated) as [vu|] eqn:Eu; [|discriminate].
    destruct (check_string record) as [vr|] eqn:Er; [|discriminate].
    apply check_string_returns in Eo as ->, Eu as ->, Er as ->.
    repeat match type of Hrun with
           | context [column_width ?col] =>
               let E := fresh "E" in
               destruct (column_width col) eqn:E; [|discriminate]
           end.
    injection Hrun as <-. eexists. cbn [files]. rewrite lookup_insert_eq.
    split_and!; [reflexivity | | reflexivity |].
    + cbn [rows]. rewrite !last_app. reflexivity.
    + cbn [widths]. intros n Hn.
      repeat (apply elem_of_cons in Hn as [-> | Hn]; [eapply column_width_le; eassumption|]).
      inversion Hn.
  - destruct (check_string original) as [vo|] eqn:Eo; [|discriminate].
    destruct (check_string updated) as [vu|] eqn:Eu; [|discriminate].
    destruct (check_string record) as [vr|] eqn:Er; [|discriminate].
    apply check_string_returns in Eo as ->, Eu as ->, Er as ->.
    repeat match type of Hrun with
           | context [column_width ?col] =>
               let E := fresh "E" in
               destruct (column_width col) eqn:E; [|discriminate]
           end.
    injection Hrun as <-. eexists. cbn [files]. rewrite lookup_insert_eq.
    split_and!; [reflexivity | reflexivity | reflexivity |].
    cbn [widths]. intros n Hn.
    repeat (apply elem_of_cons in Hn as [-> | Hn]; [eapply column_width_le; eassumption|]).
    inversion Hn.
Qed.

(** X14: [save_to_excel] touches the file at its path only: every other file and
    the console are as before, also when it raises. *)
Theorem save_to_excel_frame (original updated record excel_path other : string)
    (w : world) :
  other <> excel_path ->
  files (snd (save_to_excel original updated record excel_path w)) !! other
  = files w !! other
  /\ stdout (snd (save_to_excel original updated record excel_path w)) = stdout w.
Proof.
  intros Hne.
  unfold save_to_excel, mbind, M_bind, path_exists, lift, mret, M_ret, put_file.
  cbv beta iota zeta.
  destruct (bool_decide (is_Some (files w !! excel_path))).
  - destruct (files w !! excel_path) as [[c|wb]|]; try (split; reflexivity).
    destruct (check_string original); [|split; reflexivity].
    destruct (check_string updated); [|split; reflexivity].
    destruct (check_string record); [|split; reflexivity].
    repeat match goal with
           | |- context [column_width ?col] =>
               destruct (column_width col); [|split; reflexivity]
           end.
    cbn [snd files stdout]. now rewrite lookup_insert_ne.
  - destruct (check_string original); [|split; reflexivity].
    destruct (check_string updated); [|split; reflexivity].
    destruct (check_string record); [|split; reflexivity].
    repeat match goal with
           | |- context [column_width ?col] =>
               destruct (column_width col); [|split; reflexivity]
           end.
    cbn [snd files stdout]. now rewrite lookup_insert_ne.
Qed.

(** ** [save_all_updates] *)

Section SaveAllUpdates.

Variable output_file : string.

Lemma forM_app_return {A : Type} (l1 l2 : list A) (body : A -> M unit) (w w1 : world) :
  forM_ l1 body w = (Return tt, w1) ->
  forM_ (l1 ++ l2)%list body w = forM_ l2 body w1.
Proof.
  revert w. induction l1 as [|x l1 IH]; intros w Hrun.
  - cbn in Hrun. now injection Hrun as <-.
  - cbn [app forM_] in *. unfold mbind, M_bind in *.
    destruct (body x w) as [[[]|e] w0]; [now apply IH | discriminate].
Qed.

Lemma write_update_raises (entry : gmap string string) (w : world) :
  entry !! "ENTRYTYPE" = None ->
  write_update output_file entry w = (Raise (KeyError "ENTRYTYPE"), w).
Proof.
  intros Hty. unfold write_update, mbind, M_bind, lift.
  now rewrite (print_entry_info_untyped entry Hty).
Qed.

Lemma write_update_frame (entry : gmap string string) (other : string) (w : world) :
  other <> output_file ->
  files (snd (write_update output_file entry w)) !! other = files w !! other
  /\ stdout (snd (write_update output_file entry w)) = stdout w.
Proof.
  intros Hne. unfold write_update, mbind, M_bind, lift.
  destruct (print_entry_info entry) as [[[rec u] o]|e]; [|split; reflexivity].
  destruct (Py.truthy u); [|split; reflexivity].
  unfold write. destruct (files w !! output_file) as [[c|wb]|];
    cbn [put_file snd files stdout]; now rewrite lookup_insert_ne.
Qed.

Lemma forM_frame {A : Type} (body : A -> M unit) (P : world -> world -> Prop) :
  (forall w, P w w) ->
  (forall w1 w2 w3, P w1 w2 -> P w2 w3 -> P w1 w3) ->
  (forall x w, P w (snd (body x w))) ->
  forall l w, P w (snd (forM_ l body w)).
Proof.
  intros Hrefl Htrans Hbody. induction l as [|x l IH]; intros w.
  - apply Hrefl.
  - cbn [forM_]. unfold mbind, M_bind.
    pose proof (Hbody x w) as Hx.
    destruct (body x w) as [[[]|e] w0]; cbn [snd] in *; [|exact Hx].
    eapply Htrans; [exact Hx | apply IH].
Qed.

End SaveAllUpdates.

(** X15: What the output file held before has no effect on [save_all_updates]: it
    runs as on a world where that file is any other file, or is absent. *)
Theorem save_all_updates_overwrites (entries : list (gmap string string))
    (output_file : string) (f : file) (w : world) :
  save_all_updates entries output_file
    (mkWorld (<[output_file := f]> (files w)) (stdout w))
  = save_all_updates entries output_file w
  /\ save_all_updates entries output_file
       (mkWorld (delete output_file (files w)) (stdout w))
     = save_all_updates entries output_file w.
Proof.
  unfold save_all_updates, mbind, M_bind, open_w, put_file. cbn [files stdout].
  now rewrite insert_insert_eq, insert_delete_eq.
Qed.

(** X16: When every entry has a type tag [save_all_updates] returns, and the output
    file then holds the rebuilt entries of the known types, in the order of
    the input, each followed by an empty line. *)
Theorem save_all_updates_content (entries : list (gmap string string))
    (output_file : string) (w : world) :
  (forall entry, entry ∈ entries -> typed entry) ->
  fst (save_all_updates entries output_file w) = Return tt
  /\ files (snd (save_all_updates entries output_file w)) !! output_file
     = Some (TextFile (output_text entries)).
Proof.
  intros Hall. rewrite (save_all_updates_output output_file entries w Hall).
  split; [reflexivity|]. cbn [snd files]. apply lookup_insert_eq.
Qed.

Lemma output_text_app (l1 l2 : list (gmap string string)) :
  (forall entry, entry ∈ l1 -> typed entry) ->
  output_text (l1 ++ l2) = output_text l1 +:+ output_text l2.
Proof.
  induction l1 as [|e l1 IH]; intros Hall; [reflexivity|].
  destruct (Hall e ltac:(left)) as [ty Hty].
  cbn [app].
  rewrite (output_text_cons e (l1 ++ l2) ty Hty), (output_text_cons e l1 ty Hty).
  rewrite IH by (intros x Hx; apply Hall; now right).
  now rewrite str_app_assoc.
Qed.

(** X17: An entry without a type tag stops [save_all_updates] with
    [KeyError('ENTRYTYPE')]; the output file is left with the text of the
    entries before it, and the entries after it are not written. *)
Theorem save_all_updates_stops (l1 l2 : list (gmap string string))
    (entry : gmap string string) (output_file : string) (w : world) :
  (forall e, e ∈ l1 -> typed e) ->
  entry !! "ENTRYTYPE" = None ->
  save_all_updates (l1 ++ entry :: l2)%list output_file w
  = (Raise (KeyError "ENTRYTYPE"),
     mkWorld (<[output_file := TextFile (output_text l1)]> (files w)) (stdout w)).
Proof.
  intros Hall Hty. unfold save_all_updates, mbind, M_bind, open_w, put_file.
  rewrite (forM_app_return l1 (entry :: l2) (write_update output_file) _
             (mkWorld (<[output_file := TextFile (output_text l1)]> (files w)) (stdout w))).
  - cbn [forM_]. unfold mbind, M_bind. now rewrite write_update_raises.
  - rewrite (forM_write_update output_file l1 Hall "").
    + cbn [files stdout]. now rewrite insert_insert_eq, str_app_empty_l.
    + cbn [files]. apply lookup_insert_eq.
Qed.

(** X18: [save_all_updates] changes the output file only: every other file and the
    console are as before, also when it raises. *)
Theorem save_all_updates_frame (entries : list (gmap string string))
    (output_file other : string) (w : world) :
  other <> output_file ->
  files (snd (save_all_updates entries output_file w)) !! other = files w !! other
  /\ stdout (snd (save_all_updates entries output_file w)) = stdout w.
Proof.
  intros Hne. unfold save_all_updates, mbind, M_bind, open_w, put_file.
  pose proof (forM_frame (write_update output_file)
    (fun w1 w2 => files w2 !! other = files w1 !! other /\ stdout w2 = stdout w1)) as Hf.
  destruct (Hf ltac:(done)
              ltac:(intros w1 w2 w3 [? ?] [? ?]; split; congruence)
              ltac:(intros x w0; now apply write_update_frame)
              entries
              (mkWorld (<[output_file := TextFile ""]> (files w)) (stdout w)))
    as [Hfiles Hout].
  cbn [files stdout] in Hfiles, Hout.
  split; [|exact Hout]. rewrite Hfiles. now apply lookup_insert_ne.
Qed.

(** ** The loop of [main] *)

Section MainLoop.

Lemma print_if (b : bool) (m : string) (w : world) :
  (if b then print m else mret tt) w
  = (Return tt, mkWorld (files w) (stdout w ++ (if b then [m] else []))).
Proof.
  destruct b; [reflexivity|]. unfold mret, M_ret. rewrite app_nil_r. now destruct w.
Qed.

(** One turn of the loop on an entry with a type tag, on a log that is absent
    or starts with the header row. *)
Lemma loggable_typed (entry : gmap string string) : loggable entry -> typed entry.
Proof.
  unfold loggable, typed. intros Hl.
  destruct (entry !! "ENTRYTYPE") eqn:Hty; [eauto|].
  now rewrite (print_entry_info_untyped entry Hty) in Hl.
Qed.

Lemma log_entry_run (entry : gmap string string) (rest : list row) (w : world) :
  loggable entry ->
  (files w !! "bibtex_records.xlsx" = None /\ rest = [])
  \/ (exists ws, files w !! "bibtex_records.xlsx"
                 = Some (XlsxFile (mkWorkbook (header_row :: rest) ws))) ->
  log_entry entry w
  = (Return tt,
     mkWorld (<["bibtex_records.xlsx" :=
                  XlsxFile (mkWorkbook (header_row :: rest ++ [audit_row entry])
                              (sheet_widths (header_row :: rest ++ [audit_row entry])))]>
                (files w))
             (stdout w ++ entry_messages entry)).
Proof.
  intros Hlegal Hlog. destruct (loggable_typed entry Hlegal) as [ty Hty].
  destruct (print_entry_info_returns entry ty Hty) as (rec & u & o & Hp).
  unfold loggable in Hlegal. rewrite Hp in Hlegal. destruct Hlegal as (Ho & Hu & Hr).
  unfold log_entry, audit_row, entry_messages. rewrite Hp.
  unfold mbind at 1. unfold M_bind at 1. unfold lift. cbv beta iota.
  unfold mbind at 1. unfold M_bind at 1. rewrite print_if.
  unfold mbind at 1. unfold M_bind at 1. rewrite print_if.
  cbn [files stdout]. rewrite <- List.app_assoc.
  set (w2 := mkWorld (files w) _).
  destruct Hlog as [[Hnone ->] | [ws Hsome]].
  - rewrite (save_to_excel_run o u rec "bibtex_records.xlsx" w2 (mkWorkbook [header_row] [])).
    + reflexivity.
    + now left.
    + exact Ho.
    + exact Hu.
    + exact Hr.
    + apply columns_filled_header.
  - rewrite (save_to_excel_run o u rec "bibtex_records.xlsx" w2
               (mkWorkbook (header_row :: rest) ws)).
    + rewrite next_rows_append by discriminate. reflexivity.
    + now right.
    + exact Ho.
    + exact Hu.
    + exact Hr.
    + rewrite next_rows_append by discriminate. apply columns_filled_header.
Qed.

(** The loop on entries that can all be logged: one row per entry is added,
    in the order of the entries. *)
Lemma log_entries_run (entries : list (gmap string string)) :
  (forall e, e ∈ entries -> loggable e) ->
  forall (entry : gmap string string) (rest : list row) (w : world),
    loggable entry ->
    (files w !! "bibtex_records.xlsx" = None /\ rest = [])
    \/ (exists ws, files w !! "bibtex_records.xlsx"
                   = Some (XlsxFile (mkWorkbook (header_row :: rest) ws))) ->
    forM_ (entry :: entries) log_entry w
    = (Return tt,
       mkWorld
         (<["bibtex_records.xlsx" :=
              XlsxFile (mkWorkbook
                (header_row :: rest ++ map audit_row (entry :: entries))
                (sheet_widths (header_row :: rest ++ map audit_row (entry :: entries))))]>
            (files w))
         (stdout w ++ concat (map entry_messages (entry :: entries)))).
Proof.
  induction entries as [|e entries IH]; intros Hall entry rest w Hty Hlog.
  - cbn [forM_ map concat]. unfold mbind, M_bind.
    rewrite (log_entry_run entry rest w Hty Hlog). unfold mret, M_ret.
    now rewrite app_nil_r.
  - cbn [forM_]. unfold mbind at 1. unfold M_bind at 1.
    rewrite (log_entry_run entry rest w Hty Hlog).
    change (log_entry e;; forM_ entries log_entry) with (forM_ (e :: entries) log_entry).
    rewrite (IH ltac:(intros x Hx; apply Hall; now right) e (rest ++ [audit_row entry])%list).
    + cbn [files stdout]. rewrite insert_insert_eq.
      cbn [map concat]. rewrite <- !List.app_assoc. reflexivity.
    + apply Hall. left.
    + right. cbn [files]. eexists. apply lookup_insert_eq.
Qed.

End MainLoop.

(** ** Runs of [main] *)

Section MainRun.

Variable bibtexparser_load : file -> string + list (gmap string string).

(** [main] first removes the spreadsheet of an earlier run. *)
Lemma main_unfold (w : world) :
  main bibtexparser_load w
  = (entries ← parse_bib_file bibtexparser_load "bib.ref";
     if negb (Nat.eqb (length entries) 0) then
       print ("共找到 " +:+ pretty (length entries) +:+ " 条文献记录") ;;
       forM_ entries log_entry ;;
       save_all_updates entries "updated_references.bib" ;;
       print (Py.NL +:+ "所有更新后的条目已保存到 updated_references.bib")
     else
       print "未找到任何文献记录")
      (mkWorld (delete "bibtex_records.xlsx" (files w)) (stdout w)).
Proof.
  unfold main. unfold mbind at 1 2. unfold M_bind at 1 2. unfold path_exists.
  case_bool_decide as Hex.
  - reflexivity.
  - unfold mret, M_ret. rewrite delete_id by (now apply eq_None_not_Some).
    now destruct w.
Qed.

Lemma parse_bib_file_entries (path : string) (f : file)
    (entries : list (gmap string string)) (w : world) :
  files w !! path = Some f ->
  bibtexparser_load f = inr entries ->
  parse_bib_file bibtexparser_load path w = (Return entries, w).
Proof. intros Hf Hload. unfold parse_bib_file. now rewrite Hf, Hload. Qed.

Lemma main_run_empty (w : world) (f : file) :
  files w !! "bib.ref" = Some f ->
  bibtexparser_load f = inr [] ->
  main bibtexparser_load w
  = (Return tt,
     mkWorld (delete "bibtex_records.xlsx" (files w))
             (stdout w ++ ["未找到任何文献记录"])).
Proof.
  intros Hf Hload. rewrite main_unfold. unfold mbind, M_bind.
  rewrite (parse_bib_file_entries "bib.ref" f []); [reflexivity | | done].
  cbn [files]. now rewrite lookup_delete_ne.
Qed.

Lemma main_run (w : world) (f : file) (entry : gmap string string)
    (entries : list (gmap string string)) :
  files w !! "bib.ref" = Some f ->
  bibtexparser_load f = inr (entry :: entries) ->
  (forall e, e ∈ entry :: entries -> loggable e) ->
  main bibtexparser_load w
  = (Return tt,
     mkWorld
       (<["updated_references.bib" := TextFile (output_text (entry :: entries))]>
          (<["bibtex_records.xlsx" := audit_log (entry :: entries)]>
             (delete "bibtex_records.xlsx" (files w))))
       (stdout w
        ++ ["共找到 " +:+ pretty (length (entry :: entries)) +:+ " 条文献记录"]
        ++ concat (map entry_messages (entry :: entries))
        ++ [Py.NL +:+ "所有更新后的条目已保存到 updated_references.bib"])).
Proof.
  intros Hf Hload Hall. rewrite main_unfold. unfold mbind at 1. unfold M_bind at 1.
  rewrite (parse_bib_file_entries "bib.ref" f (entry :: entries));
    [| cbn [files]; now rewrite lookup_delete_ne | done].
  cbn [length Nat.eqb negb].
  unfold mbind at 1. unfold M_bind at 1. unfold print at 1. cbn [files stdout].
  unfold mbind at 1. unfold M_bind at 1.
  rewrite (log_entries_run entries ltac:(intros x Hx; apply Hall; now right) entry []).
  2:{ apply Hall. left. }
  2:{ left. split; [|reflexivity]. cbn [files]. apply lookup_delete_eq. }
  unfold mbind at 1. unfold M_bind at 1.
  rewrite (save_all_updates_output "updated_references.bib" (entry :: entries) _
             ltac:(intros x Hx; apply loggable_typed, Hall, Hx)).
  unfold print. cbn [files stdout app]. unfold audit_log.
  rewrite <- !List.app_assoc. reflexivity.
Qed.

Lemma log_entry_raises (entry : gmap string string) (w : world) :
  entry !! "ENTRYTYPE" = None ->
  log_entry entry w = (Raise (KeyError "ENTRYTYPE"), w).
Proof.
  intros Hty. unfold log_entry, mbind, M_bind, lift.
  now rewrite (print_entry_info_untyped entry Hty).
Qed.

Lemma main_run_untyped (w : world) (f : file)
    (l1 l2 : list (gmap string string)) (entry : gmap string string) :
  files w !! "bib.ref" = Some f ->
  bibtexparser_load f = inr (l1 ++ entry :: l2)%list ->
  (forall e, e ∈ l1 -> loggable e) ->
  entry !! "ENTRYTYPE" = None ->
  exists out,
    main bibtexparser_load w
    = (Raise (KeyError "ENTRYTYPE"),
       mkWorld
         match l1 with
         | [] => delete "bibtex_records.xlsx" (files w)
         | _ :: _ =>
             <["bibtex_records.xlsx" := audit_log l1]>
               (delete "bibtex_records.xlsx" (files w))
         end
         out).
Proof.
  intros Hf Hload Hall Hty. rewrite main_unfold. unfold mbind at 1. unfold M_bind at 1.
  rewrite (parse_bib_file_entries "bib.ref" f (l1 ++ entry :: l2));
    [| cbn [files]; now rewrite lookup_delete_ne | done].
  assert (Hlen : negb (Nat.eqb (length (l1 ++ entry :: l2)) 0) = true)
    by (destruct l1; reflexivity).
  rewrite Hlen.
  unfold mbind at 1. unfold M_bind at 1. unfold print at 1. cbn [files stdout].
  unfold mbind at 1. unfold M_bind at 1.
  destruct l1 as [|e1 l1].
  - cbn [app forM_]. unfold mbind at 1. unfold M_bind at 1.
    rewrite (log_entry_raises entry _ Hty). eexists. reflexivity.
  - erewrite (forM_app_return (e1 :: l1) (entry :: l2) log_entry).
    2:{ apply (log_entries_run l1 ltac:(intros x Hx; apply Hall; now right) e1 []).
        - apply Hall. left.
        - left. split; [|reflexivity]. cbn [files]. apply lookup_delete_eq. }
    cbn [forM_]. unfold mbind at 1. unfold M_bind at 1.
    rewrite (log_entry_raises entry _ Hty). eexists. reflexivity.
Qed.

End MainRun.

Section MainTheorems.

Variable bibtexparser_load : file -> string + list (gmap string string).

(** X19: A run on a database whose entries all have a type tag and texts that
    the cells take ends normally; the spreadsheet then holds the header row
    and one row per entry, in the order of the input, the output file holds
    the rebuilt entries, and no other file is changed. *)
Theorem main_logs_every_entry (w : world) (f : file)
    (entries : list (gmap string string)) :
  files w !! "bib.ref" = Some f ->
  bibtexparser_load f = inr entries ->
  entries <> [] ->
  (forall e, e ∈ entries -> loggable e) ->
  fst (main bibtexparser_load w) = Return tt
  /\ (exists ws,
        files (snd (main bibtexparser_load w)) !! "bibtex_records.xlsx"
        = Some (XlsxFile (mkWorkbook (header_row :: map audit_row entries) ws)))
  /\ files (snd (main bibtexparser_load w)) !! "updated_references.bib"
     = Some (TextFile (output_text entries))
  /\ (forall p, p <> "bibtex_records.xlsx" -> p <> "updated_references.bib" ->
        files (snd (main bibtexparser_load w)) !! p = files w !! p).
Proof.
  intros Hf Hload Hne Hall. destruct entries as [|entry entries]; [congruence|].
  rewrite (main_run bibtexparser_load w f entry entries Hf Hload Hall).
  cbn [fst snd files]. split_and!.
  - reflexivity.
  - eexists. rewrite lookup_insert_ne by discriminate.
    rewrite lookup_insert_eq. reflexivity.
  - apply lookup_insert_eq.
  - intros p Hp1 Hp2.
    rewrite lookup_insert_ne by congruence. rewrite lookup_insert_ne by congruence.
    now rewrite lookup_delete_ne by congruence.
Qed.

(** X20: For a database whose entries all have a type tag and texts that the
    cells take, a second run on the files that a run has left gives the same
    files: the spreadsheet is built anew and the output file is written
    over. *)
Theorem main_idempotent_on_files (w : world) (f : file)
    (entries : list (gmap string string)) :
  files w !! "bib.ref" = Some f ->
  bibtexparser_load f = inr entries ->
  (forall e, e ∈ entries -> loggable e) ->
  fst (main bibtexparser_load (snd (main bibtexparser_load w))) = Return tt
  /\ files (snd (main bibtexparser_load (snd (main bibtexparser_load w))))
     = files (snd (main bibtexparser_load w)).
Proof.
  intros Hf Hload Hall. destruct entries as [|entry entries].
  - rewrite (main_run_empty bibtexparser_load w f Hf Hload). cbn [snd].
    rewrite (main_run_empty bibtexparser_load _ f); [| | exact Hload].
    + cbn [fst snd files]. split; [reflexivity|].
      apply delete_id, lookup_delete_eq.
    + cbn [files]. now rewrite lookup_delete_ne.
  - rewrite (main_run bibtexparser_load w f entry entries Hf Hload Hall). cbn [snd].
    rewrite (main_run bibtexparser_load _ f entry entries); [| | exact Hload | exact Hall].
    + cbn [fst snd files]. split; [reflexivity|].
      set (F1 := <["updated_references.bib" := _]> (<["bibtex_records.xlsx" := _]>
                   (delete "bibtex_records.xlsx" (files w)))).
      apply map_eq. intros k.
      destruct (decide (k = "updated_references.bib")) as [->|Hk1].
      { rewrite lookup_insert_eq. unfold F1. now rewrite lookup_insert_eq. }
      rewrite lookup_insert_ne by congruence.
      destruct (decide (k = "bibtex_records.xlsx")) as [->|Hk2].
      { rewrite lookup_insert_eq. unfold F1.
        rewrite lookup_insert_ne by discriminate. now rewrite lookup_insert_eq. }
      rewrite lookup_insert_ne by congruence.
      apply lookup_delete_ne. congruence.
    + cbn [files]. rewrite lookup_insert_ne by discriminate.
      rewrite lookup_insert_ne by discriminate.
      now rewrite lookup_delete_ne.
Qed.

(** X21: An entry without a type tag, after entries that have one and whose
    texts the cells take, stops the run with [KeyError('ENTRYTYPE')]: the
    entries before it are logged, the later ones are not, and the output file
    is not written at all. *)
Theorem main_stops_on_untyped (w : world) (f : file)
    (l1 l2 : list (gmap string string)) (entry : gmap string string) :
  files w !! "bib.ref" = Some f ->
  bibtexparser_load f = inr (l1 ++ entry :: l2)%list ->
  (forall e, e ∈ l1 -> loggable e) ->
  entry !! "ENTRYTYPE" = None ->
  fst (main bibtexparser_load w) = Raise (KeyError "ENTRYTYPE")
  /\ files (snd (main bibtexparser_load w)) !! "updated_references.bib"
     = files w !! "updated_references.bib"
  /\ files (snd (main bibtexparser_load w)) !! "bibtex_records.xlsx"
     = match l1 with
       | [] => None
       | _ :: _ => Some (audit_log l1)
       end.
Proof.
  intros Hf Hload Hall Hty.
  destruct (main_run_untyped bibtexparser_load w f l1 l2 entry Hf Hload Hall Hty)
    as [out ->].
  cbn [fst snd files]. split; [reflexivity|]. destruct l1 as [|e1 l1].
  - split; [now rewrite lookup_delete_ne | apply lookup_delete_eq].
  - split; [|apply lookup_insert_eq].
    rewrite lookup_insert_ne by discriminate. now rewrite lookup_delete_ne.
Qed.

(** X22: Without the input file the run prints that the file is not found, then
    that there is no record, and ends normally; the parser is not called. *)
Theorem main_missing_input (w : world) :
  files w !! "bib.ref" = None ->
  main bibtexparser_load w
  = (Return tt,
     mkWorld (delete "bibtex_records.xlsx" (files w))
             (stdout w ++ ["错误: 找不到文件 bib.ref"; "未找到任何文献记录"])).
Proof.
  intros Hf. rewrite main_unfold. unfold parse_bib_file. unfold mbind, M_bind.
  cbn [files]. rewrite lookup_delete_ne by discriminate. rewrite Hf.
  unfold print, mret, M_ret. cbn [files stdout length Nat.eqb negb].
  now rewrite <- List.app_assoc.
Qed.

(** X23: A failure of the parser is reported on the console with its text; the run
    then goes on as for a database without records. *)
Theorem main_parser_failure (w : world) (f : file) (msg : string) :
  files w !! "bib.ref" = Some f ->
  bibtexparser_load f = inl msg ->
  main bibtexparser_load w
  = (Return tt,
     mkWorld (delete "bibtex_records.xlsx" (files w))
             (stdout w ++ ["解析过程中发生错误: " +:+ msg; "未找到任何文献记录"])).
Proof.
  intros Hf Hload. rewrite main_unfold. unfold parse_bib_file. unfold mbind, M_bind.
  cbn [files]. rewrite lookup_delete_ne by discriminate. rewrite Hf, Hload.
  unfold print, mret, M_ret. cbn [files stdout length Nat.eqb negb].
  now rewrite <- List.app_assoc.
Qed.

End MainTheorems.

(** ** What the two formats accept *)

Section Formats.

Lemma many_spec (p : ascii -> bool) (k : string -> bool) (s : string) :
  Re.many p k s = true
  <-> exists a b, s = a +:+ b /\ all_chars p a = true /\ k b = true.
Proof.
  split.
  - induction s as [|c s IH]; cbn [Re.many].
    + rewrite orb_false_r. intros Hk. now exists "", "".
    + intros [Hk | [Hc Hm]%andb_true_iff]%orb_true_iff.
      * now exists "", (String c s).
      * destruct (IH Hm) as (a & b & -> & Ha & Hb).
        exists (String c a), b. cbn [all_chars]. now rewrite Hc, Ha.
  - intros (a & b & -> & Ha & Hb). induction a as [|c a IH].
    + rewrite str_app_empty_l. destruct b; cbn [Re.many]; now rewrite Hb.
    + cbn [all_chars] in Ha. apply andb_true_iff in Ha as [Hc Ha].
      rewrite str_app_cons. cbn [Re.many]. rewrite Hc, (IH Ha). apply orb_true_r.
Qed.

Lemma at_eol_spec (s : string) : Re.at_eol s = true <-> s = "" \/ s = Py.NL.
Proof.
  destruct s as [|c [|c' s]]; cbn [Re.at_eol].
  - split; [now left | reflexivity].
  - rewrite Ascii.eqb_eq. split; [intros ->; now right | intros [[=] | [= ->]]; reflexivity].
  - split; [discriminate | intros [[=] | [=]]].
Qed.

Lemma run_lit (lit pat : list Re.item) (p s : string) :
  lit = Re.lit p ->
  Re.run (lit ++ pat)%list s = true <-> exists s', s = p +:+ s' /\ Re.run pat s' = true.
Proof.
  intros ->. revert s. induction p as [|c p IH]; intros s.
  - cbn [Re.lit list_ascii_of_string map app]. rewrite str_app_empty_l || idtac.
    split; [intros H; now exists s | now intros (s' & -> & H)].
  - change (Re.lit (String c p)) with (Re.One (Re.chr c) :: Re.lit p).
    cbn [app Re.run]. destruct s as [|c' s].
    + split; [discriminate | intros (s' & [=] & _)].
    + unfold Re.chr at 1. rewrite andb_true_iff, Ascii.eqb_eq, IH. split.
      * intros [-> (s' & -> & H)]. now exists s'.
      * intros (s' & [= -> ->] & H). split; [reflexivity | now exists s'].
Qed.

End Formats.

(** X24: The format of [article] and [inproceedings] accepts the texts that end
    in a group between parentheses with no closing parenthesis inside, after
    a part without a newline, and the same texts followed by one newline;
    it accepts no other text. *)
Theorem paren_format_accepts (s : string) :
  Re.re_match paren_format s = true
  <-> exists a b t,
        s = a +:+ "(" +:+ b +:+ ")" +:+ t
        /\ all_chars Re.dot a = true
        /\ all_chars (Re.not_char ")") b = true
        /\ (t = "" \/ t = Py.NL).
Proof.
  unfold Re.re_match, paren_format. cbn [Re.run]. rewrite many_spec. split.
  - intros (a & s1 & -> & Ha & Hk). destruct s1 as [|c s2]; [discriminate|].
    apply andb_true_iff in Hk as [Hc Hm]. apply Ascii.eqb_eq in Hc as ->.
    apply many_spec in Hm as (b & s3 & -> & Hb & Hk).
    destruct s3 as [|c s4]; [discriminate|].
    apply andb_true_iff in Hk as [Hc Hm]. apply Ascii.eqb_eq in Hc as ->.
    rewrite andb_true_r in Hm. apply at_eol_spec in Hm.
    now exists a, b, s4.
  - intros (a & b & t & -> & Ha & Hb & Ht). exists a, ("(" +:+ b +:+ ")" +:+ t).
    split_and!; [reflexivity | exact Ha |].
    change ("(" +:+ b +:+ ")" +:+ t) with (String "(" (b +:+ ")" +:+ t)).
    unfold Re.chr at 1. rewrite Ascii.eqb_refl, andb_true_l.
    apply many_spec. exists b, (")" +:+ t). split_and!; [reflexivity | exact Hb |].
    change (")" +:+ t) with (String ")" t).
    unfold Re.chr. rewrite Ascii.eqb_refl, andb_true_l, andb_true_r.
    now apply at_eol_spec.
Qed.

Lemma seq_spec (ok k : string -> bool) (s acc : string) :
  Re.seq ok k acc s = true
  <-> exists a b, s = a +:+ b /\ ok (acc +:+ a) = true /\ k b = true.
Proof.
  revert acc. induction s as [|c s IH]; intros acc; cbn [Re.seq].
  - rewrite orb_false_r, andb_true_iff. split.
    + intros [Hok Hk]. exists "", "". rewrite (str_app_empty_r acc). split_and!; done.
    + intros (a & b & Hab & Hok & Hk). destruct a; [|discriminate].
      rewrite str_app_empty_l in Hab. subst b.
      now rewrite str_app_empty_r in Hok.
  - rewrite orb_true_iff, andb_true_iff, IH. split.
    + intros [[Hok Hk] | (a & b & -> & Hok & Hk)].
      * exists "", (String c s). rewrite (str_app_empty_r acc). split_and!; done.
      * exists (String c a), b. split_and!; [reflexivity | | exact Hk].
        rewrite str_app_assoc in Hok. exact Hok.
    + intros (a & b & Hab & Hok & Hk). destruct a as [|c' a].
      * left. rewrite str_app_empty_l in Hab. subst b.
        now rewrite str_app_empty_r in Hok.
      * right. rewrite str_app_cons in Hab. injection Hab as <- ->.
        exists a, b. split_and!; [reflexivity | | exact Hk].
        now rewrite str_app_assoc.
Qed.

Lemma class_isascii (p : ascii -> bool) (s : string) :
  (forall c, p c = true -> (nat_of_ascii c < 128)%nat) ->
  all_chars p s = true -> Py.isascii s = true.
Proof.
  intros Hp. induction s as [|c s IH]; [reflexivity|]. cbn [all_chars Py.isascii].
  intros [Hc Hs]%andb_true_iff. rewrite (IH Hs), andb_true_r.
  apply Nat.ltb_lt. now apply Hp.
Qed.

Lemma digit_below_128 (c : ascii) : Re.digit c = true -> (nat_of_ascii c < 128)%nat.
Proof.
  unfold Re.digit. intros [_ H%Nat.leb_le]%andb_true_iff. lia.
Qed.

Lemma space_below_128 (c : ascii) : Re.space c = true -> (nat_of_ascii c < 128)%nat.
Proof.
  unfold Re.space.
  intros [[H%Nat.eqb_eq | [_ H%Nat.leb_le]%andb_true_iff]%orb_true_iff
         | [_ H%Nat.leb_le]%andb_true_iff]%orb_true_iff; lia.
Qed.

Lemma space_run_ascii (s : string) : all_chars Re.space s = true -> space_run s = true.
Proof.
  intros Hs. unfold space_run.
  now rewrite (class_isascii Re.space s space_below_128 Hs).
Qed.

Lemma digit_run1_ascii (c : ascii) (s : string) :
  all_chars Re.digit (String c s) = true -> digit_run1 (String c s) = true.
Proof.
  intros Hs. unfold digit_run1, digit_run. cbn [Py.truthy andb].
  now rewrite (class_isascii Re.digit _ digit_below_128 Hs).
Qed.

(** What [re.match] with the arXiv pattern accepts, in terms of the texts
    that [\s*] and [\d+] match. *)
Lemma arxiv_format_spec (s : string) :
  Re.re_match arxiv_format s = true
  <-> exists sp d1 d2 t,
        s = "arXiv preprint arXiv:" +:+ sp +:+ d1 +:+ "." +:+ d2 +:+ t
        /\ space_run sp = true
        /\ digit_run1 d1 = true
        /\ digit_run1 d2 = true
        /\ (t = "" \/ t = Py.NL).
Proof.
  unfold Re.re_match, arxiv_format.
  rewrite (run_lit _ _ "arXiv preprint arXiv:" s eq_refl). cbn [Re.run]. split.
  - intros (s0 & -> & Hm). apply seq_spec in Hm as (sp & s1 & -> & Hsp & Hm).
    apply seq_spec in Hm as (d1 & s2 & -> & Hd1 & Hk).
    destruct s2 as [|c s3]; [discriminate|].
    apply andb_true_iff in Hk as [Hc Hm]. apply Ascii.eqb_eq in Hc as ->.
    apply seq_spec in Hm as (d2 & t & -> & Hd2 & Hk).
    rewrite andb_true_r in Hk. apply at_eol_spec in Hk.
    rewrite str_app_empty_l in Hsp, Hd1, Hd2.
    now exists sp, d1, d2, t.
  - intros (sp & d1 & d2 & t & -> & Hsp & Hd1 & Hd2 & Ht).
    eexists. split; [reflexivity|].
    apply seq_spec. exists sp, (d1 +:+ "." +:+ d2 +:+ t).
    split_and!; [reflexivity | now rewrite str_app_empty_l |].
    apply seq_spec. exists d1, ("." +:+ d2 +:+ t).
    split_and!; [reflexivity | now rewrite str_app_empty_l |].
    change ("." +:+ d2 +:+ t) with (String "." (d2 +:+ t)).
    unfold Re.chr. rewrite Ascii.eqb_refl, andb_true_l.
    apply seq_spec. exists d2, t.
    split_and!; [reflexivity | now rewrite str_app_empty_l |].
    rewrite andb_true_r. now apply at_eol_spec.
Qed.

(** X25: The format of the short form of [article] accepts [arXiv preprint arXiv:]
    followed by white space if any, digits, a dot and digits, and the same
    texts followed by one newline; every text that it accepts starts with
    [arXiv preprint arXiv:]. *)
Theorem arxiv_format_accepts :
  (forall sp c1 d1 c2 d2 t,
      all_chars Re.space sp = true ->
      all_chars Re.digit (String c1 d1) = true ->
      all_chars Re.digit (String c2 d2) = true ->
      t = "" \/ t = Py.NL ->
      Re.re_match arxiv_format
        ("arXiv preprint arXiv:" +:+ sp +:+ String c1 d1 +:+ "." +:+ String c2 d2 +:+ t)
      = true)
  /\ (forall s, Re.re_match arxiv_format s = true ->
        Py.startswith s "arXiv preprint arXiv:" = true).
Proof.
  split.
  - intros sp c1 d1 c2 d2 t Hsp Hd1 Hd2 Ht. apply arxiv_format_spec.
    exists sp, (String c1 d1), (String c2 d2), t.
    split_and!; [reflexivity | now apply space_run_ascii
                | now apply digit_run1_ascii | now apply digit_run1_ascii | exact Ht].
  - intros s (sp & d1 & d2 & t & -> & _)%arxiv_format_spec.
    apply startswith_app.
Qed.

(** ** The original text *)

Section OriginalText.

Lemma key_le_trans : Transitive key_le.
Proof. intros a b c Hab Hbc. unfold key_le in *. now transitivity (fst b). Qed.

Lemma key_le_total (a b : string * string) : key_le a b \/ key_le b a.
Proof. unfold key_le. destruct (total String.le (fst a) (fst b)); auto. Qed.

Lemma key_le_leb (a b : string * string) :
  String.leb (fst a) (fst b) = true <-> key_le a b.
Proof. unfold key_le, String.le. symmetry. apply Is_true_true. Qed.

Lemma insert_sorted_perm (x : string * string) (l : list (string * string)) :
  insert_sorted x l ≡ₚ x :: l.
Proof.
  induction l as [|y l IH]; [reflexivity|]. cbn [insert_sorted].
  destruct (String.leb (fst x) (fst y)); [reflexivity|].
  rewrite IH. apply Permutation_swap.
Qed.

Lemma sorted_items_perm (d : gmap string string) : sorted_items d ≡ₚ map_to_list d.
Proof.
  unfold sorted_items. induction (map_to_list d) as [|x l IH]; [reflexivity|].
  cbn [foldr]. now rewrite insert_sorted_perm, IH.
Qed.

Lemma insert_sorted_HdRel (a x : string * string) (l : list (string * string)) :
  key_le a x -> HdRel key_le a l -> HdRel key_le a (insert_sorted x l).
Proof.
  intros Hax Hal. destruct l as [|y l]; cbn [insert_sorted]; [now constructor|].
  destruct (String.leb (fst x) (fst y)); constructor; [done|].
  now inversion Hal.
Qed.

Lemma insert_sorted_Sorted (x : string * string) (l : list (string * string)) :
  Sorted key_le l -> Sorted key_le (insert_sorted x l).
Proof.
  induction l as [|y l IH]; intros Hs; cbn [insert_sorted];
    [repeat constructor|].
  destruct (String.leb (fst x) (fst y)) eqn:E.
  - constructor; [done|]. constructor. now apply key_le_leb.
  - inversion_clear Hs as [|? ? Hl Hhd]. constructor; [now apply IH|].
    apply insert_sorted_HdRel; [|done].
    destruct (key_le_total y x) as [?|Hxy]; [done|].
    apply key_le_leb in Hxy. congruence.
Qed.

Lemma sorted_items_Sorted (d : gmap string string) : Sorted key_le (sorted_items d).
Proof.
  unfold sorted_items. induction (map_to_list d) as [|x l IH]; [constructor|].
  cbn [foldr]. now apply insert_sorted_Sorted.
Qed.

Lemma StronglySorted_filter {A : Type} (R : relation A) (f : A -> bool) (l : list A) :
  StronglySorted R l -> StronglySorted R (List.filter f l).
Proof.
  induction 1 as [|x l Hl IH Hx]; cbn [List.filter]; [constructor|].
  destruct (f x); [|done]. constructor; [done|].
  apply Forall_forall. intros y Hy%list_elem_of_In%filter_In.
  destruct Hy as [Hy _]. eapply Forall_forall in Hx; [exact Hx | now apply list_elem_of_In].
Qed.

Lemma foldl_lines (skip : string * string -> bool) (l : list (string * string))
    (init : string) :
  foldl (fun acc kv => if skip kv then acc else acc +:+ field_line (fst kv) (snd kv))
        init l
  = init +:+ Py.concat (map (fun kv => field_line (fst kv) (snd kv))
                            (List.filter (fun kv => negb (skip kv)) l)).
Proof.
  revert init. induction l as [|kv l IH]; intros init.
  - cbn. now rewrite str_app_empty_r.
  - cbn [foldl List.filter]. rewrite IH. destruct (skip kv); cbn [negb]; [reflexivity|].
    cbn [map]. unfold Py.concat. cbn [foldr]. now rewrite str_app_assoc.
Qed.

End OriginalText.

(** X26: The original text of an entry is its header (an at sign, the type
    tag as written, an opening brace, the identifier or [unnamed], a comma and
    a newline), then one line for every field other than the type tag and the
    identifier (a tab, the key padded to ten characters, the value between
    braces after an equals sign, a comma and a newline), each field once, by
    ascending key; the trailing commas and newlines are then removed and a
    newline and the closing brace are added. *)
Theorem original_entry_sorted (entry : gmap string string) (ty : string) :
  entry !! "ENTRYTYPE" = Some ty ->
  original_of (print_entry_info entry)
  = Some (Py.rstrip
            (("@" +:+ ty +:+ "{" +:+ default "unnamed" (entry !! "ID")
              +:+ "," +:+ Py.NL)
             +:+ Py.concat
                   (map (fun kv => Py.TAB +:+ Py.ljust (fst kv) 10 +:+ " = {"
                                   +:+ snd kv +:+ "}," +:+ Py.NL)
                        (shown_items entry)))
            (String "," Py.NL)
          +:+ Py.NL +:+ "}")
  /\ (forall k v, (k, v) ∈ shown_items entry
                  <-> entry !! k = Some v /\ k <> "ENTRYTYPE" /\ k <> "ID")
  /\ NoDup (shown_items entry)
  /\ StronglySorted key_le (shown_items entry).
Proof.
  intros Hty. split_and!.
  - destruct (print_entry_info_returns entry ty Hty) as (rec & u & o & Hp).
    assert (Ho : original_of (print_entry_info entry) = Some o) by now rewrite Hp.
    rewrite Ho. f_equal.
    unfold print_entry_info, getitem in Hp. rewrite Hty in Hp.
    cbn [mbind result_bind] in Hp. rewrite foldl_lines in Hp.
    fold (shown_items entry) in Hp.
    match type of Hp with
    | mbind _ ?g = _ => destruct g as [[r0 u0]|e0]; [|discriminate]
    end.
    cbn [mbind result_bind] in Hp. now injection Hp as _ _ <-.
  - intros k v. unfold shown_items.
    rewrite list_elem_of_In, filter_In, <- list_elem_of_In.
    rewrite sorted_items_perm, elem_of_map_to_list. cbn [fst].
    rewrite negb_true_iff, orb_false_iff, !String.eqb_neq. tauto.
  - unfold shown_items. apply NoDup_ListNoDup, List.NoDup_filter, NoDup_ListNoDup.
    rewrite sorted_items_perm. apply NoDup_map_to_list.
  - unfold shown_items. apply StronglySorted_filter.
    apply (@Sorted_StronglySorted _ key_le key_le_trans), sorted_items_Sorted.
Qed.

(** ** Entries that the spreadsheet takes *)

Lemma clean_app (s t : string) : clean s -> clean t -> clean (s +:+ t).
Proof.
  unfold clean. intros Hs Ht. induction s as [|c s IH]; [exact Ht|].
  rewrite str_app_cons. cbn [all_chars] in *.
  apply andb_true_iff in Hs as [Hc Hs]. rewrite Hc. cbn [andb]. now apply IH.
Qed.

Lemma clean_take (s : string) (n : N) : clean s -> clean (Py.take s n).
Proof.
  unfold clean. revert n. induction s as [|c s IH]; intros n Hs; [reflexivity|].
  cbn [all_chars] in Hs. apply andb_true_iff in Hs as [Hc Hs].
  cbn [Py.take]. destruct (Py.is_continuation c).
  - cbn [all_chars]. rewrite Hc. cbn [andb]. now apply IH.
  - destruct (N.eqb n 0); [reflexivity|].
    cbn [all_chars]. rewrite Hc. cbn [andb]. now apply IH.
Qed.

Lemma clean_rstrip (s chars : string) : clean s -> clean (Py.rstrip s chars).
Proof.
  unfold clean. induction s as [|c s IH]; intros Hs; [reflexivity|].
  cbn [all_chars] in Hs. apply andb_true_iff in Hs as [Hc Hs].
  specialize (IH Hs). cbn [Py.rstrip].
  destruct (Py.rstrip s chars) as [|c1 s1].
  - destruct (Py.char_in chars c); [reflexivity|].
    cbn [all_chars]. now rewrite Hc.
  - cbn [all_chars] in *. now rewrite Hc.
Qed.

Lemma clean_spaces (n : nat) : clean (Py.spaces n).
Proof. unfold clean. induction n as [|n IH]; [reflexivity|]. exact IH. Qed.

Lemma clean_ljust (s : string) (w : nat) : clean s -> clean (Py.ljust s w).
Proof. intros Hs. apply clean_app; [exact Hs | apply clean_spaces]. Qed.

Lemma clean_join (sep : string) (l : list string) :
  clean sep -> Forall clean l -> clean (Py.join sep l).
Proof.
  intros Hsep Hl. induction Hl as [|x l Hx Hl IH]; [reflexivity|].
  destruct l as [|y l]; [exact Hx|].
  change (clean (x +:+ sep +:+ Py.join sep (y :: l))).
  apply clean_app; [exact Hx|]. apply clean_app; [exact Hsep | exact IH].
Qed.

Lemma clean_concat (l : list string) : Forall clean l -> clean (Py.concat l).
Proof.
  intros Hl. induction Hl as [|x l Hx Hl IH]; [reflexivity|].
  change (clean (x +:+ Py.concat l)). now apply clean_app.
Qed.

Lemma clean_get_default (entry : gmap string string) (k dflt : string) :
  clean_entry entry -> clean dflt -> clean (get_default entry k dflt).
Proof.
  intros Hc Hd. unfold get_default. destruct (entry !! k) as [v|] eqn:E; [|exact Hd].
  exact (proj2 (Hc k v E)).
Qed.

Lemma clean_header_line (entry : gmap string string) (entry_type : string) :
  clean_entry entry -> clean entry_type -> clean (header_line entry entry_type).
Proof.
  intros Hc Ht. unfold header_line.
  apply clean_app; [reflexivity|]. apply clean_app; [exact Ht|].
  apply clean_app; [reflexivity|].
  apply clean_app; [now apply clean_get_default|]. reflexivity.
Qed.

Lemma clean_canonical_text (entry : gmap string string) (entry_type : string)
    (fields : list string) :
  clean_entry entry -> clean entry_type -> Forall clean fields ->
  clean (canonical_text entry entry_type fields).
Proof.
  intros Hc Ht Hf. unfold canonical_text.
  apply clean_app; [now apply clean_header_line|].
  apply clean_app; [|reflexivity].
  apply clean_join; [reflexivity|].
  apply Forall_map. eapply Forall_impl; [exact Hf|].
  intros f Hcf. unfold canonical_line.
  apply clean_app; [reflexivity|]. apply clean_app; [now apply clean_ljust|].
  apply clean_app; [reflexivity|].
  apply clean_app; [now apply clean_get_default|]. reflexivity.
Qed.

Lemma clean_final_record (entry : gmap string string) (r : rule) :
  Forall clean (rule_fields r) -> clean (final_record entry r).
Proof.
  intros Hf. unfold final_record.
  destruct (rule_fields r) as [|field0 fs] eqn:E; [reflexivity|].
  assert (Hrec : clean (checked_record entry field0 fs (rule_format r))).
  { unfold checked_record.
    destruct (negb (length (missing_fields entry (field0 :: fs)) =? 0)%nat).
    - apply clean_app; [reflexivity|]. apply clean_join; [reflexivity|].
      unfold missing_fields. rewrite Forall_forall in Hf |- *.
      intros f Hin. apply Hf.
      apply list_elem_of_In, filter_In in Hin as [Hin _]. now apply list_elem_of_In.
    - destruct (rule_format r) as [pat|]; [|reflexivity].
      destruct (negb (Re.re_match pat (get_default entry field0 "null")));
        [|reflexivity].
      apply clean_app; [reflexivity|]. apply clean_app; [|reflexivity].
      now inversion Hf. }
  destruct (rule_demote r && String.eqb _ "ok"); [reflexivity | exact Hrec].
Qed.

Lemma clean_rule (entry : gmap string string) (ty : string) (r : rule) :
  selected_rule entry ty = Some r ->
  clean (rule_type r) /\ Forall clean (rule_fields r).
Proof.
  intros Hr. apply selected_rule_cases in Hr.
  repeat (apply elem_of_cons in Hr as [-> | Hr];
          [split; [reflexivity | repeat constructor] |]).
  inversion Hr.
Qed.

(** The original text of an entry, lines 109-113. *)
Lemma print_entry_info_original (entry : gmap string string) (ty : string) :
  entry !! "ENTRYTYPE" = Some ty ->
  original_of (print_entry_info entry)
  = Some (close_entry
            (header_line entry ty
             +:+ Py.concat (map (fun kv => field_line (fst kv) (snd kv))
                                (shown_items entry)))).
Proof.
  intros Hty.
  destruct (print_entry_info_returns entry ty Hty) as (rec & u & o & Hp).
  assert (Ho : original_of (print_entry_info entry) = Some o) by now rewrite Hp.
  rewrite Ho. f_equal.
  unfold print_entry_info, getitem in Hp. rewrite Hty in Hp.
  cbn [mbind result_bind] in Hp. rewrite foldl_lines in Hp.
  fold (shown_items entry) in Hp.
  match type of Hp with
  | mbind _ ?g = _ => destruct g as [[r0 u0]|e0]; [|discriminate]
  end.
  cbn [mbind result_bind] in Hp. now injection Hp as _ _ <-.
Qed.

Lemma clean_original (entry : gmap string string) (ty : string) :
  clean_entry entry -> entry !! "ENTRYTYPE" = Some ty ->
  clean (close_entry
           (header_line entry ty
            +:+ Py.concat (map (fun kv => field_line (fst kv) (snd kv))
                               (shown_items entry)))).
Proof.
  intros Hc Hty. unfold close_entry.
  apply clean_app; [|reflexivity]. apply clean_rstrip.
  apply clean_app; [apply clean_header_line; [exact Hc | exact (proj2 (Hc _ _ Hty))]|].
  apply clean_concat, Forall_map, Forall_forall. intros [k v] Hin.
  assert (Hkv : entry !! k = Some v).
  { unfold shown_items in Hin.
    apply list_elem_of_In, filter_In in Hin as [Hin _].
    apply list_elem_of_In in Hin.
    rewrite sorted_items_perm in Hin. now apply elem_of_map_to_list in Hin. }
  destruct (Hc k v Hkv) as [Hk Hv]. unfold field_line. cbn [fst snd].
  apply clean_app; [reflexivity|]. apply clean_app; [now apply clean_ljust|].
  apply clean_app; [reflexivity|]. apply clean_app; [exact Hv | reflexivity].
Qed.

(** X27: An entry with a type tag whose keys and values hold none of the
    control characters that a cell refuses can be logged: the three texts
    that [print_entry_info] returns for it hold none either, so every cell
    assignment of [save_to_excel] goes through. *)
Theorem clean_entry_loggable (entry : gmap string string) :
  typed entry -> clean_entry entry ->
  exists record update_entry original_entry,
    print_entry_info entry = Return (record, update_entry, original_entry)
    /\ check_string original_entry = Return (Py.take original_entry 32767)
    /\ check_string update_entry = Return (Py.take update_entry 32767)
    /\ check_string record = Return (Py.take record 32767)
    /\ loggable entry.
Proof.
  intros [ty Hty] Hc.
  pose proof (print_entry_info_original entry ty Hty) as Ho.
  assert (Hall : exists record update_entry original_entry,
             print_entry_info entry = Return (record, update_entry, original_entry)
             /\ clean original_entry /\ clean update_entry /\ clean record).
  { destruct (selected_rule entry ty) as [r|] eqn:Hr.
    - destruct (print_entry_info_known entry ty Hty r Hr) as [o Hp].
      rewrite Hp in Ho. cbn [original_of] in Ho. injection Ho as ->.
      destruct (clean_rule entry ty r Hr) as [Ht Hf].
      eexists _, _, _. split; [exact Hp|]. split_and!.
      + now apply clean_original.
      + now apply clean_canonical_text.
      + now apply clean_final_record.
    - destruct (print_entry_info_no_rule entry ty Hty Hr) as [o Hp].
      rewrite Hp in Ho. cbn [original_of] in Ho. injection Ho as ->.
      eexists _, _, _. split; [exact Hp|]. split_and!.
      + now apply clean_original.
      + reflexivity.
      + reflexivity. }
  destruct Hall as (rec & u & o & Hp & Hco & Hcu & Hcr).
  exists rec, u, o. split; [exact Hp|].
  assert (Hcs : forall s, clean s -> check_string s = Return (Py.take s 32767)).
  { intros s Hs. unfold check_string, cell_text.
    now rewrite (clean_take s 32767 Hs). }
  split_and!; [now apply Hcs | now apply Hcs | now apply Hcs |].
  unfold loggable. rewrite Hp. unfold legal_text, cell_text.
  split_and!; now apply clean_take.
Qed.

End Library.

(** * The theorems at sample entries and worlds *)

(** Every field of a concrete list is present in a concrete entry. *)
Ltac all_present :=
  let f := fresh "f" in
  let Hf := fresh "Hf" in
  intros f Hf; cbn in Hf;
  repeat (apply elem_of_cons in Hf as [-> | Hf];
          [eexists; split; [vm_compute; reflexivity | discriminate] |]);
  inversion Hf.


Ltac all_typed :=
  let e := fresh "e" in
  let He := fresh "He" in
  intros e He;
  repeat (apply elem_of_cons in He as [-> | He]; [eexists; vm_compute; reflexivity |]);
  inversion He.

Ltac all_loggable :=
  let e := fresh "e" in
  let He := fresh "He" in
  intros e He;
  repeat (apply elem_of_cons in He as [-> | He]; [vm_compute; repeat split |]);
  inversion He.

Ltac not_in_list :=
  let Hin := fresh "Hin" in
  cbn; intros Hin;
  repeat (apply elem_of_cons in Hin as [Hin | Hin]; [discriminate|]);
  inversion Hin.

Section Samples.

#[local] Existing Instance ascii_tables.

Lemma missing_fields_error_witness :
  exists missing,
    record_of (print_entry_info ex_inproceedings_no_year)
    = Some ("error: 缺失字段: " +:+ Py.join ", " missing)
    /\ (forall f, f ∈ missing <->
          f ∈ rule_fields inproceedings_rule /\ ~ present ex_inproceedings_no_year f)
    /\ missing `sublist_of` rule_fields inproceedings_rule.
Proof.
  apply (missing_fields_error ex_inproceedings_no_year "inproceedings" inproceedings_rule).
  - vm_compute; reflexivity.
  - vm_compute; reflexivity.
  - exists "year". split.
    + cbn. repeat constructor.
    + intros (v & Hv & _). vm_compute in Hv. discriminate.
Defined.

Lemma canonical_rendering_witness :
  update_of (print_entry_info ex_book_no_edition)
  = Some (("@" +:+ rule_type book_rule +:+ "{"
           +:+ default "unnamed" (ex_book_no_edition !! "ID") +:+ "," +:+ Py.NL)
          +:+ Py.join (String "," Py.NL)
                (map (canonical_line ex_book_no_edition) (rule_fields book_rule))
          +:+ Py.NL +:+ "}")
  /\ rule_type book_rule
     = (if String.eqb (Py.lower "book") "misc" then "www" else Py.lower "book")
  /\ length (map (canonical_line ex_book_no_edition) (rule_fields book_rule))
     = length (rule_fields book_rule)
  /\ (forall f v, ex_book_no_edition !! f = Some v ->
        canonical_line ex_book_no_edition f
        = Py.TAB +:+ Py.ljust f 10 +:+ " = {" +:+ v +:+ "}")
  /\ (forall f, ex_book_no_edition !! f = None ->
        canonical_line ex_book_no_edition f = Py.TAB +:+ Py.ljust f 10 +:+ " = {null}").
Proof.
  apply (canonical_rendering ex_book_no_edition "book" book_rule).
  - vm_compute; reflexivity.
  - vm_compute; reflexivity.
Defined.

Lemma empty_field_missing_but_rendered_witness :
  (exists missing,
      record_of (print_entry_info ex_book_empty_edition)
      = Some ("error: 缺失字段: " +:+ Py.join ", " missing)
      /\ "edition" ∈ missing)
  /\ update_of (print_entry_info ex_book_empty_edition)
     = Some (canonical_text ex_book_empty_edition (rule_type book_rule) (rule_fields book_rule))
  /\ canonical_line ex_book_empty_edition "edition"
     = Py.TAB +:+ Py.ljust "edition" 10 +:+ " = {}"
  /\ canonical_line ex_book_empty_edition "edition"
     ∈ map (canonical_line ex_book_empty_edition) (rule_fields book_rule)
  /\ (forall f v, ex_book_empty_edition !! f = Some v ->
        get_default ex_book_empty_edition f "null" = v)
  /\ (forall f, ex_book_empty_edition !! f = None ->
        get_default ex_book_empty_edition f "null" = "null").
Proof.
  apply (empty_field_missing_but_rendered ex_book_empty_edition "book" book_rule).
  - vm_compute; reflexivity.
  - vm_compute; reflexivity.
  - cbn. repeat constructor.
  - vm_compute; reflexivity.
Defined.

Lemma misc_rewritten_to_www_witness :
  record_of (print_entry_info ex_misc) = Some "warning: misc改www"
  /\ update_of (print_entry_info ex_misc)
     = Some (canonical_text ex_misc "www" ["author"; "year"; "title"; "url"])
  /\ exists rest, canonical_text ex_misc "www" ["author"; "year"; "title"; "url"]
                  = "@www{" +:+ rest.
Proof.
  apply (misc_rewritten_to_www ex_misc "Misc").
  - vm_compute; reflexivity.
  - left. vm_compute; reflexivity.
  - all_present.
Defined.

Lemma undefined_type_witness :
  exists original_entry,
    print_entry_info ex_phdthesis
    = Return ("error: 未定义bibtex类型", "", original_entry).
Proof.
  apply (undefined_type ex_phdthesis "phdthesis").
  - vm_compute; reflexivity.
  - vm_compute. intros Hin.
    repeat (apply elem_of_cons in Hin as [Hin | Hin]; [discriminate|]).
    inversion Hin.
Defined.

Lemma unknown_type_omitted_witness :
  save_all_updates [ex_book; ex_phdthesis; ex_misc] "updated_references.bib"
    (mkWorld ∅ [])
  = save_all_updates [ex_book; ex_misc] "updated_references.bib" (mkWorld ∅ []).
Proof.
  apply (unknown_type_omitted [ex_book] [ex_misc] ex_phdthesis "phdthesis").
  - vm_compute; reflexivity.
  - vm_compute. intros Hin.
    repeat (apply elem_of_cons in Hin as [Hin | Hin]; [discriminate|]).
    inversion Hin.
Defined.

Lemma main_no_records_witness :
  exists msgs,
    main (fun _ => inr []) ex_world_empty_input
    = (Return tt,
       mkWorld (delete "bibtex_records.xlsx" (files ex_world_empty_input))
               (stdout ex_world_empty_input ++ msgs ++ ["未找到任何文献记录"]))
    /\ delete "bibtex_records.xlsx" (files ex_world_empty_input)
         !! "updated_references.bib"
       = files ex_world_empty_input !! "updated_references.bib"
    /\ delete "bibtex_records.xlsx" (files ex_world_empty_input)
         !! "bibtex_records.xlsx" = None.
Proof.
  apply (main_no_records (fun _ => inr []) ex_world_empty_input).
  intros f entries _ [= <-]. reflexivity.
Defined.

(** ** Evaluations *)

Example lower_kelvin :
  Py.lower (String "B" (String "O" (String "O"
    (String (ascii_of_nat 226) (String (ascii_of_nat 132) (String (ascii_of_nat 170) ""))))))
  = "book".
Proof. reflexivity. Qed.

Example lower_mixed : Py.lower "InProceedings" = "inproceedings".
Proof. reflexivity. Qed.

Example utf8_len : Py.len "缺失字段" = 4%nat.
Proof. reflexivity. Qed.

Example rstrip_only_tail : Py.rstrip "a,,b,
," comma_nl = "a,,b".
Proof. reflexivity. Qed.

Example paren_yes : Re.re_match paren_format "12(3)" = true.
Proof. reflexivity. Qed.

Example paren_no : Re.re_match paren_format "1-20" = false.
Proof. reflexivity. Qed.

Example paren_nested : Re.re_match paren_format "a (b) (c)" = true.
Proof. reflexivity. Qed.

Example paren_inner_close : Re.re_match paren_format "a (b)) c" = false.
Proof. reflexivity. Qed.

Example arxiv_yes : Re.re_match arxiv_format "arXiv preprint arXiv: 1706.03762" = true.
Proof. reflexivity. Qed.

Example arxiv_no : Re.re_match arxiv_format "arXiv:1706.03762" = false.
Proof. reflexivity. Qed.

(** A [book] without [edition]: the error names [edition], and the rebuilt
    entry still has six field lines, the last with [null]. *)
Example book_without_edition :
  print_entry_info ex_book_no_edition
  = Return ("error: 缺失字段: edition",
            "@book{knuth1997,
	author     = {Knuth},
	title      = {The Art of Computer Programming},
	publisher  = {Addison-Wesley},
	year       = {1997},
	address    = {Reading},
	edition    = {null}
}",
            "@book{knuth1997,
	address    = {Reading},
	author     = {Knuth},
	publisher  = {Addison-Wesley},
	title      = {The Art of Computer Programming},
	year       = {1997}
}").
Proof. vm_compute. reflexivity. Qed.

(** A missing field wins over a format that would fail as well. *)
Example missing_field_before_format :
  record_of (print_entry_info ex_inproceedings_no_year) = Some "error: 缺失字段: year"
  /\ Re.re_match paren_format "Deep Residual Learning" = false.
Proof. vm_compute. split; reflexivity. Qed.

(** Three entries, the second of an unknown type: two texts in the output. *)
Example output_skips_unknown :
  output_text [ex_book; ex_phdthesis; ex_misc] = output_text [ex_book; ex_misc].
Proof. vm_compute. reflexivity. Qed.

Lemma type_tag_case_insensitive_witness :
  record_of (print_entry_info (<["ENTRYTYPE" := "BOOK"]> ex_book))
  = record_of (print_entry_info ex_book)
  /\ update_of (print_entry_info (<["ENTRYTYPE" := "BOOK"]> ex_book))
     = update_of (print_entry_info ex_book).
Proof.
  apply (type_tag_case_insensitive ex_book "book" "BOOK"); vm_compute; reflexivity.
Defined.

Lemma other_fields_ignored_witness :
  record_of (print_entry_info (<["abstract" := "A long text."]> ex_book))
  = record_of (print_entry_info ex_book)
  /\ update_of (print_entry_info (<["abstract" := "A long text."]> ex_book))
     = update_of (print_entry_info ex_book).
Proof.
  apply (other_fields_ignored ex_book "book" "abstract" "A long text." book_rule).
  - vm_compute; reflexivity.
  - vm_compute; reflexivity.
  - not_in_list.
  - discriminate.
  - discriminate.
Defined.

Lemma ok_only_if_complete_witness :
  exists ty r,
    ex_inproceedings_paren_title !! "ENTRYTYPE" = Some ty
    /\ selected_rule ex_inproceedings_paren_title ty = Some r
    /\ (forall f, f ∈ rule_fields r -> present ex_inproceedings_paren_title f)
    /\ (forall pat, rule_format r = Some pat ->
          exists field v, head (rule_fields r) = Some field
                          /\ ex_inproceedings_paren_title !! field = Some v
                          /\ Re.re_match pat v = true)
    /\ Py.lower ty <> "misc" /\ Py.lower ty <> "www".
Proof.
  apply (ok_only_if_complete ex_inproceedings_paren_title). vm_compute; reflexivity.
Defined.

Lemma rebuilt_empty_iff_unknown_witness :
  update_of (print_entry_info ex_phdthesis) = Some ""
  <-> Py.lower "phdthesis" ∉ known_types.
Proof.
  apply (rebuilt_empty_iff_unknown ex_phdthesis "phdthesis"). vm_compute; reflexivity.
Defined.

Lemma fill_reflects_outcome_witness :
  (fill_of "error: 缺失字段: edition" = RedFill
   <-> (Py.lower "book" ∉ known_types
        \/ exists r f, selected_rule ex_book_no_edition "book" = Some r
                       /\ f ∈ rule_fields r /\ ~ present ex_book_no_edition f))
  /\ (fill_of "error: 缺失字段: edition" = NoFill <-> "error: 缺失字段: edition" = "ok").
Proof.
  apply (fill_reflects_outcome ex_book_no_edition "book" "error: 缺失字段: edition");
    vm_compute; reflexivity.
Defined.

Lemma format_mismatch_names_first_field_witness :
  record_of (print_entry_info ex_inproceedings)
  = Some ("warning: " +:+ "title" +:+ "格式错误").
Proof.
  apply (format_mismatch_names_first_field ex_inproceedings "inproceedings"
           inproceedings_rule paren_format "title" "Deep Residual Learning").
  - vm_compute; reflexivity.
  - vm_compute; reflexivity.
  - all_present.
  - reflexivity.
  - reflexivity.
  - vm_compute; reflexivity.
  - vm_compute; reflexivity.
Defined.

Lemma arxiv_article_short_form_witness :
  update_of (print_entry_info ex_arxiv_title_as_journal)
  = Some ("@article{" +:+ default "unnamed" (ex_arxiv_title_as_journal !! "ID")
          +:+ "," +:+ Py.NL
          +:+ Py.TAB +:+ "title      = {"
          +:+ default "null" (ex_arxiv_title_as_journal !! "title") +:+ "}," +:+ Py.NL
          +:+ Py.TAB +:+ "author     = {"
          +:+ default "null" (ex_arxiv_title_as_journal !! "author") +:+ "}," +:+ Py.NL
          +:+ Py.TAB +:+ "year       = {"
          +:+ default "null" (ex_arxiv_title_as_journal !! "year") +:+ "}," +:+ Py.NL
          +:+ Py.TAB +:+ "journal    = {" +:+ ("" +:+ "ARXIV" +:+ "") +:+ "}" +:+ Py.NL
          +:+ "}")
  /\ (missing_fields ex_arxiv_title_as_journal ["title"; "author"; "year"; "journal"]
      <> [] ->
      record_of (print_entry_info ex_arxiv_title_as_journal)
      = Some ("error: 缺失字段: "
              +:+ Py.join ", "
                    (missing_fields ex_arxiv_title_as_journal
                       ["title"; "author"; "year"; "journal"])))
  /\ (missing_fields ex_arxiv_title_as_journal ["title"; "author"; "year"; "journal"]
      = [] ->
      record_of (print_entry_info ex_arxiv_title_as_journal)
      = Some (if Re.re_match arxiv_format
                   (default "null" (ex_arxiv_title_as_journal !! "title"))
              then "ok" else "warning: title格式错误")).
Proof.
  apply (arxiv_article_short_form ex_arxiv_title_as_journal "article" "" "ARXIV" "").
  - vm_compute; reflexivity.
  - vm_compute; reflexivity.
  - vm_compute; reflexivity.
  - vm_compute; reflexivity.
Defined.

Lemma save_to_excel_creates_witness :
  save_to_excel "@book{k}" "" "error: 未定义bibtex类型" "bibtex_records.xlsx" (mkWorld ∅ [])
  = (Return tt,
     mkWorld
       (<["bibtex_records.xlsx" :=
            XlsxFile (mkWorkbook
              [header_row;
               mkRow (cell_text "@book{k}") (cell_text "")
                     (cell_text "error: 未定义bibtex类型")
                     (fill_of "error: 未定义bibtex类型")]
              (sheet_widths
                 [header_row;
                  mkRow (cell_text "@book{k}") (cell_text "")
                        (cell_text "error: 未定义bibtex类型")
                        (fill_of "error: 未定义bibtex类型")]))]>
          (files (mkWorld ∅ [])))
       (stdout (mkWorld ∅ []))).
Proof.
  apply (save_to_excel_creates "@book{k}" "" "error: 未定义bibtex类型"
           "bibtex_records.xlsx" (mkWorld ∅ [])); vm_compute; reflexivity.
Defined.

Lemma save_to_excel_appends_witness :
  save_to_excel "@book{k}" "@book{k}" "ok" "bibtex_records.xlsx" ex_world_empty_input
  = (Return tt,
     mkWorld
       (<["bibtex_records.xlsx" :=
            XlsxFile (mkWorkbook
              (rows (mkWorkbook [header_row] [])
               ++ [mkRow (cell_text "@book{k}") (cell_text "@book{k}")
                         (cell_text "ok") (fill_of "ok")])
              (sheet_widths
                 (rows (mkWorkbook [header_row] [])
                  ++ [mkRow (cell_text "@book{k}") (cell_text "@book{k}")
                            (cell_text "ok") (fill_of "ok")])))]>
          (files ex_world_empty_input))
       (stdout ex_world_empty_input)).
Proof.
  apply (save_to_excel_appends "@book{k}" "@book{k}" "ok" "bibtex_records.xlsx"
           ex_world_empty_input (mkWorkbook [header_row] [])).
  - vm_compute; reflexivity.
  - discriminate.
  - apply columns_filled_header.
  - vm_compute; reflexivity.
  - vm_compute; reflexivity.
  - vm_compute; reflexivity.
Defined.

Lemma save_to_excel_not_a_workbook_witness :
  exists e,
    save_to_excel "@book{k}" "@book{k}" "ok" "bib.ref" ex_world_empty_input
    = (Raise e, ex_world_empty_input).
Proof.
  apply (save_to_excel_not_a_workbook "@book{k}" "@book{k}" "ok" "bib.ref" "").
  vm_compute; reflexivity.
Defined.

Lemma save_to_excel_empty_column_witness :
  save_to_excel "@phdthesis{t}" "" "error: 未定义bibtex类型" "bibtex_records.xlsx"
    ex_blank_sheet_world
  = (Raise ValueError, ex_blank_sheet_world).
Proof.
  apply (save_to_excel_empty_column "@phdthesis{t}" "error: 未定义bibtex类型"
           "bibtex_records.xlsx" ex_blank_sheet_world
           (mkWorkbook [mkRow "@phdthesis{s}" "" "error: 未定义bibtex类型" RedFill] [])).
  - vm_compute; reflexivity.
  - intros r Hr. apply list_elem_of_singleton in Hr as ->. reflexivity.
  - vm_compute; reflexivity.
  - vm_compute; reflexivity.
Defined.

Lemma save_to_excel_widths_bounded_witness :
  exists wb,
    files (snd (save_to_excel "@book{k}" "@book{k}" "ok" "bibtex_records.xlsx"
                  ex_world_empty_input)) !! "bibtex_records.xlsx"
    = Some (XlsxFile wb)
    /\ last (rows wb)
       = Some (mkRow (cell_text "@book{k}") (cell_text "@book{k}") (cell_text "ok")
                     (fill_of "ok"))
    /\ length (widths wb) = 3
    /\ (forall n, n ∈ widths wb -> n <= 100).
Proof.
  apply (save_to_excel_widths_bounded "@book{k}" "@book{k}" "ok" "bibtex_records.xlsx"
           ex_world_empty_input).
  vm_compute; reflexivity.
Defined.

Lemma save_to_excel_frame_witness :
  files (snd (save_to_excel "@book{k}" "@book{k}" "ok" "bibtex_records.xlsx"
                ex_world_empty_input)) !! "bib.ref"
  = files ex_world_empty_input !! "bib.ref"
  /\ stdout (snd (save_to_excel "@book{k}" "@book{k}" "ok" "bibtex_records.xlsx"
                    ex_world_empty_input))
     = stdout ex_world_empty_input.
Proof.
  apply (save_to_excel_frame "@book{k}" "@book{k}" "ok" "bibtex_records.xlsx" "bib.ref").
  discriminate.
Defined.

Lemma save_all_updates_content_witness :
  fst (save_all_updates [ex_book; ex_phdthesis; ex_misc] "updated_references.bib"
         ex_world_empty_input) = Return tt
  /\ files (snd (save_all_updates [ex_book; ex_phdthesis; ex_misc]
                    "updated_references.bib" ex_world_empty_input))
       !! "updated_references.bib"
     = Some (TextFile (output_text [ex_book; ex_phdthesis; ex_misc])).
Proof.
  apply (save_all_updates_content [ex_book; ex_phdthesis; ex_misc]).
  all_typed.
Defined.

Lemma save_all_updates_stops_witness :
  save_all_updates ([ex_book] ++ ex_untyped :: [ex_misc])%list "updated_references.bib"
    ex_world_empty_input
  = (Raise (KeyError "ENTRYTYPE"),
     mkWorld (<["updated_references.bib" := TextFile (output_text [ex_book])]>
                (files ex_world_empty_input))
             (stdout ex_world_empty_input)).
Proof.
  apply (save_all_updates_stops [ex_book] [ex_misc] ex_untyped).
  - all_typed.
  - vm_compute; reflexivity.
Defined.

Lemma save_all_updates_frame_witness :
  files (snd (save_all_updates [ex_book; ex_untyped] "updated_references.bib"
                ex_world_empty_input)) !! "bibtex_records.xlsx"
  = files ex_world_empty_input !! "bibtex_records.xlsx"
  /\ stdout (snd (save_all_updates [ex_book; ex_untyped] "updated_references.bib"
                    ex_world_empty_input))
     = stdout ex_world_empty_input.
Proof.
  apply (save_all_updates_frame [ex_book; ex_untyped] "updated_references.bib"
           "bibtex_records.xlsx").
  discriminate.
Defined.

Lemma main_logs_every_entry_witness :
  fst (main ex_load_two ex_world_empty_input) = Return tt
  /\ (exists ws,
        files (snd (main ex_load_two ex_world_empty_input)) !! "bibtex_records.xlsx"
        = Some (XlsxFile (mkWorkbook
                  (header_row :: map audit_row [ex_book; ex_phdthesis]) ws)))
  /\ files (snd (main ex_load_two ex_world_empty_input)) !! "updated_references.bib"
     = Some (TextFile (output_text [ex_book; ex_phdthesis]))
  /\ (forall p, p <> "bibtex_records.xlsx" -> p <> "updated_references.bib" ->
        files (snd (main ex_load_two ex_world_empty_input)) !! p
        = files ex_world_empty_input !! p).
Proof.
  apply (main_logs_every_entry ex_load_two ex_world_empty_input (TextFile "")).
  - vm_compute; reflexivity.
  - reflexivity.
  - discriminate.
  - all_loggable.
Defined.

Lemma main_idempotent_on_files_witness :
  fst (main ex_load_two (snd (main ex_load_two ex_world_empty_input))) = Return tt
  /\ files (snd (main ex_load_two (snd (main ex_load_two ex_world_empty_input))))
     = files (snd (main ex_load_two ex_world_empty_input)).
Proof.
  apply (main_idempotent_on_files ex_load_two ex_world_empty_input (TextFile "")
           [ex_book; ex_phdthesis]).
  - vm_compute; reflexivity.
  - reflexivity.
  - all_loggable.
Defined.

Lemma main_stops_on_untyped_witness :
  fst (main ex_load_untyped ex_world_empty_input) = Raise (KeyError "ENTRYTYPE")
  /\ files (snd (main ex_load_untyped ex_world_empty_input)) !! "updated_references.bib"
     = files ex_world_empty_input !! "updated_references.bib"
  /\ files (snd (main ex_load_untyped ex_world_empty_input)) !! "bibtex_records.xlsx"
     = Some (audit_log [ex_book]).
Proof.
  apply (main_stops_on_untyped ex_load_untyped ex_world_empty_input (TextFile "")
           [ex_book] [ex_misc] ex_untyped).
  - vm_compute; reflexivity.
  - reflexivity.
  - all_loggable.
  - vm_compute; reflexivity.
Defined.

Lemma main_missing_input_witness :
  main ex_load_two (mkWorld ∅ [])
  = (Return tt,
     mkWorld (delete "bibtex_records.xlsx" (files (mkWorld ∅ [])))
             (stdout (mkWorld ∅ []) ++ ["错误: 找不到文件 bib.ref"; "未找到任何文献记录"])).
Proof.
  apply (main_missing_input ex_load_two (mkWorld ∅ [])). vm_compute; reflexivity.
Defined.

Lemma main_parser_failure_witness :
  main ex_load_failure ex_world_empty_input
  = (Return tt,
     mkWorld (delete "bibtex_records.xlsx" (files ex_world_empty_input))
             (stdout ex_world_empty_input
              ++ ["解析过程中发生错误: " +:+ "unexpected end of file"; "未找到任何文献记录"])).
Proof.
  apply (main_parser_failure ex_load_failure ex_world_empty_input (TextFile "")).
  - vm_compute; reflexivity.
  - reflexivity.
Defined.

Lemma original_entry_sorted_witness :
  original_of (print_entry_info ex_book)
  = Some (Py.rstrip
            (("@" +:+ "book" +:+ "{" +:+ default "unnamed" (ex_book !! "ID")
              +:+ "," +:+ Py.NL)
             +:+ Py.concat
                   (map (fun kv => Py.TAB +:+ Py.ljust (fst kv) 10 +:+ " = {"
                                   +:+ snd kv +:+ "}," +:+ Py.NL)
                        (shown_items ex_book)))
            (String "," Py.NL)
          +:+ Py.NL +:+ "}")
  /\ (forall k v, (k, v) ∈ shown_items ex_book
                  <-> ex_book !! k = Some v /\ k <> "ENTRYTYPE" /\ k <> "ID")
  /\ NoDup (shown_items ex_book)
  /\ StronglySorted key_le (shown_items ex_book).
Proof.
  apply (original_entry_sorted ex_book "book"). vm_compute; reflexivity.
Defined.

Lemma arxiv_format_accepts_witness :
  Re.re_match arxiv_format
    ("arXiv preprint arXiv:" +:+ " " +:+ String "1" "706" +:+ "." +:+ String "0" "3762" +:+ "")
  = true.
Proof.
  apply (proj1 arxiv_format_accepts " " "1"%char "706" "0"%char "3762" "");
    [reflexivity | reflexivity | reflexivity | now left].
Defined.

Lemma clean_entry_loggable_witness :
  exists record update_entry original_entry,
    print_entry_info ex_book = Return (record, update_entry, original_entry)
    /\ check_string original_entry = Return (Py.take original_entry 32767)
    /\ check_string update_entry = Return (Py.take update_entry 32767)
    /\ check_string record = Return (Py.take record 32767)
    /\ loggable ex_book.
Proof.
  apply (clean_entry_loggable ex_book).
  - exists "book". vm_compute; reflexivity.
  - intros k v Hkv.
    assert (Hin : (k, v) ∈ map_to_list ex_book) by now apply elem_of_map_to_list.
    revert Hin. vm_compute map_to_list. intros Hin.
    repeat (apply elem_of_cons in Hin as [[= -> ->] | Hin];
            [split; vm_compute; reflexivity |]).
    inversion Hin.
Defined.

End Samples.
